(** * Roast session tracker (src/App.tsx): shallow embedding and properties

    The component keeps its state in React hooks and changes it through
    handlers bound to buttons.  The state is a record, each handler a pure
    function on it, and each control a guarded application of its handler
    (a control that is not rendered or is [disabled] does nothing).

    Numbers.  A JavaScript number is an IEEE 754 binary64 value: temperatures
    and derived metrics are primitive floats.  The timer [roastTimer] only
    ever holds a count of seconds (0, then +1 per tick); it and the values
    copied from it ([firstCrackTime], the [time] of a reading) are integers,
    kept as [Z] and converted, correctly rounded, where the code divides. *)

From Stdlib Require Import ZArith List Bool String Ascii Lia.
From Stdlib Require Import Floats.
Import ListNotations.

Local Open Scope Z_scope.

Set Warnings "-inexact-float".

(** ** The JavaScript built-ins the component calls *)

Module JS.

(** The number nearest to an integer (exact below 2^53). *)
Definition of_Z (z : Z) : float :=
  SF2Prim (binary_normalize prec emax z 0 false).

(** [isNaN] on a number. *)
Definition isNaN (x : float) : bool := PrimFloat.is_nan x.

(** [isFinite] on a number. *)
Definition isFinite (x : float) : bool :=
  negb (PrimFloat.is_nan x) && negb (PrimFloat.is_infinity x).

(** Truthiness of a number: NaN, +0 and -0 are falsy. *)
Definition truthy (x : float) : bool :=
  negb (PrimFloat.is_nan x) && negb (PrimFloat.is_zero x).

(** [x || 0] on numbers. *)
Definition or_zero (x : float) : float :=
  if truthy x then x else 0%float.

(** [Math.round]: NaN, the infinities, the zeros and integers are returned
    as they are; otherwise floor(x + 1/2) computed exactly, with a zero
    result keeping the sign of [x]. *)
Definition Math_round (x : float) : float :=
  match Prim2SF x with
  | S754_finite s m e =>
      if 0 <=? e then x
      else
        let k := - e in
        let sm := if s then Z.neg m else Z.pos m in
        let n := Z.shiftr (sm + Z.shiftl 1 (k - 1)) k in
        if n =? 0 then (if s then neg_zero else zero) else of_Z n
  | _ => x
  end.

(** [Math.max] of two numbers: NaN if either is NaN, +0 above -0. *)
Definition Math_max (x y : float) : float :=
  if PrimFloat.is_nan x || PrimFloat.is_nan y then nan
  else if PrimFloat.ltb x y then y
  else if PrimFloat.ltb y x then x
  else if PrimFloat.is_zero x && PrimFloat.get_sign x then y
  else x.

(** *** [parseFloat]

    Leading white space is skipped, then the longest prefix that is a
    StrDecimalLiteral is read: an optional sign, then [Infinity], or digits
    with an optional fraction and an optional exponent; whatever follows is
    ignored.  No such prefix gives NaN.  Strings are byte strings, so the
    white space recognised is the ASCII part of WhiteSpace and
    LineTerminator. *)

Definition is_space (c : ascii) : bool :=
  let n := N_of_ascii c in
  (((9 <=? n) && (n <=? 13)) || (n =? 32))%N.

Definition digit_of (c : ascii) : option Z :=
  let n := Z.of_N (N_of_ascii c) in
  if (48 <=? n) && (n <=? 57) then Some (n - 48) else None.

Fixpoint skip_space (s : string) : string :=
  match s with
  | String c r => if is_space c then skip_space r else s
  | EmptyString => s
  end.

(** Reads a run of digits: the accumulated value, the number of digits read
    and the rest of the string. *)
Fixpoint read_digits (s : string) (acc : Z) (cnt : Z) : Z * Z * string :=
  match s with
  | String c r =>
      match digit_of c with
      | Some d => read_digits r (10 * acc + d) (cnt + 1)
      | None => (acc, cnt, s)
      end
  | EmptyString => (acc, cnt, s)
  end.

(** The ExponentPart, when one is there: [e] or [E], an optional sign and at
    least one digit; 0 otherwise. *)
Definition read_exponent (s : string) : Z :=
  match s with
  | String c r =>
      if (Ascii.eqb c "e" || Ascii.eqb c "E")%char then
        match r with
        | String "+" r' =>
            let '(v, n, _) := read_digits r' 0 0 in if 0 <? n then v else 0
        | String "-" r' =>
            let '(v, n, _) := read_digits r' 0 0 in if 0 <? n then - v else 0
        | _ =>
            let '(v, n, _) := read_digits r 0 0 in if 0 <? n then v else 0
        end
      else 0
  | EmptyString => 0
  end.

(** The number nearest to [m * 10^k], for [m > 0]. *)
Definition decimal (neg : bool) (m : positive) (k : Z) : spec_float :=
  if 0 <=? k then
    binary_normalize prec emax
      ((if neg then Z.neg m else Z.pos m) * 10 ^ k) 0 false
  else
    SFdiv prec emax (S754_finite neg m 0)
      (S754_finite false (Z.to_pos (10 ^ (- k))) 0).

Definition mk_number (neg : bool) (m k : Z) : float :=
  match m with
  | Z.pos p => SF2Prim (decimal neg p k)
  | _ => if neg then neg_zero else zero
  end.

(** An unsigned literal. *)
Definition read_unsigned (neg : bool) (s : string) : float :=
  if String.prefix "Infinity" s then
    (if neg then neg_infinity else infinity)
  else
    let '(ip, ni, r) := read_digits s 0 0 in
    match r with
    | String "." r' =>
        let '(m, nf, r'') := read_digits r' ip 0 in
        if (0 <? ni) || (0 <? nf)
        then mk_number neg m (read_exponent r'' - nf)
        else nan
    | _ =>
        if 0 <? ni then mk_number neg ip (read_exponent r) else nan
    end.

Definition parseFloat (s : string) : float :=
  match skip_space s with
  | String "+" r => read_unsigned false r
  | String "-" r => read_unsigned true r
  | r => read_unsigned false r
  end.

End JS.

(** ** Data model *)

Inductive AppState := setup | roasting | completion | summary | history.

Inductive RoastPhase := drying | maillard | development.

Record TemperatureReading := {
  time : Z;
  temperature : float
}.

(** An archived roast (interface [RoastData]); the fields carry the prefix
    [rd_] because the component state has fields of the same names. *)
Record RoastData := {
  rd_id : string;
  rd_date : string;
  rd_greenWeight : float;
  rd_roastedWeight : float;
  rd_ambientTemp : float;
  rd_chargeTemp : float;
  rd_roastType : string;
  rd_beanOrigin : string;
  rd_totalTime : Z;
  rd_firstCrackTime : Z;
  rd_developmentPercent : float;
  rd_weightLoss : float;
  rd_notes : string;
  rd_temperatureReadings : list TemperatureReading
}.

(** The hooks of [App], in the order they are declared, and the
    [roastHistory] entry of localStorage ([None]: no such key; [Some h]: the
    text [JSON.stringify h]).  The text hooks hold strings; what the input
    elements deliver is described apart ([from_inputs]), so the handlers
    and [dispatch] are defined on every string. *)
Record State := {
  appState : AppState;
  roastTimer : Z;
  isTimerRunning : bool;
  firstCrackTime : option Z;
  temperatureReadings : list TemperatureReading;
  currentTemp : string;
  roastHistory : list RoastData;
  greenWeight : string;
  ambientTemp : string;
  chargeTemp : string;
  roastType : string;
  beanOrigin : string;
  roastedWeight : string;
  roastNotes : string;
  localStorage : option (list RoastData)
}.

(** The state after the first render and the loading effect; for a mount
    on a storage that has the entry, [h] is the list [JSON.parse] returns
    (it need not be the list that was written: JSON has no NaN and no
    infinities). *)
Definition initial (stored : option (list RoastData)) : State :=
  {| appState := setup;
     roastTimer := 0;
     isTimerRunning := false;
     firstCrackTime := None;
     temperatureReadings := [];
     currentTemp := "";
     roastHistory := match stored with Some h => h | None => [] end;
     greenWeight := "";
     ambientTemp := "";
     chargeTemp := "";
     roastType := "Medium";
     beanOrigin := "";
     roastedWeight := "";
     roastNotes := "";
     localStorage := stored |}.

(** *** State setters *)

Definition setAppState (v : AppState) (s : State) : State :=
  {| appState := v; roastTimer := roastTimer s;
     isTimerRunning := isTimerRunning s; firstCrackTime := firstCrackTime s;
     temperatureReadings := temperatureReadings s;
     currentTemp := currentTemp s; roastHistory := roastHistory s;
     greenWeight := greenWeight s; ambientTemp := ambientTemp s;
     chargeTemp := chargeTemp s; roastType := roastType s;
     beanOrigin := beanOrigin s; roastedWeight := roastedWeight s;
     roastNotes := roastNotes s; localStorage := localStorage s |}.

Definition setRoastTimer (v : Z) (s : State) : State :=
  {| appState := appState s; roastTimer := v;
     isTimerRunning := isTimerRunning s; firstCrackTime := firstCrackTime s;
     temperatureReadings := temperatureReadings s;
     currentTemp := currentTemp s; roastHistory := roastHistory s;
     greenWeight := greenWeight s; ambientTemp := ambientTemp s;
     chargeTemp := chargeTemp s; roastType := roastType s;
     beanOrigin := beanOrigin s; roastedWeight := roastedWeight s;
     roastNotes := roastNotes s; localStorage := localStorage s |}.

Definition setIsTimerRunning (v : bool) (s : State) : State :=
  {| appState := appState s; roastTimer := roastTimer s;
     isTimerRunning := v; firstCrackTime := firstCrackTime s;
     temperatureReadings := temperatureReadings s;
     currentTemp := currentTemp s; roastHistory := roastHistory s;
     greenWeight := greenWeight s; ambientTemp := ambientTemp s;
     chargeTemp := chargeTemp s; roastType := roastType s;
     beanOrigin := beanOrigin s; roastedWeight := roastedWeight s;
     roastNotes := roastNotes s; localStorage := localStorage s |}.

Definition setFirstCrackTime (v : option Z) (s : State) : State :=
  {| appState := appState s; roastTimer := roastTimer s;
     isTimerRunning := isTimerRunning s; firstCrackTime := v;
     temperatureReadings := temperatureReadings s;
     currentTemp := currentTemp s; roastHistory := roastHistory s;
     greenWeight := greenWeight s; ambientTemp := ambientTemp s;
     chargeTemp := chargeTemp s; roastType := roastType s;
     beanOrigin := beanOrigin s; roastedWeight := roastedWeight s;
     roastNotes := roastNotes s; localStorage := localStorage s |}.

Definition setTemperatureReadings (v : list TemperatureReading) (s : State)
  : State :=
  {| appState := appState s; roastTimer := roastTimer s;
     isTimerRunning := isTimerRunning s; firstCrackTime := firstCrackTime s;
     temperatureReadings := v;
     currentTemp := currentTemp s; roastHistory := roastHistory s;
     greenWeight := greenWeight s; ambientTemp := ambientTemp s;
     chargeTemp := chargeTemp s; roastType := roastType s;
     beanOrigin := beanOrigin s; roastedWeight := roastedWeight s;
     roastNotes := roastNotes s; localStorage := localStorage s |}.

Definition setCurrentTemp (v : string) (s : State) : State :=
  {| appState := appState s; roastTimer := roastTimer s;
     isTimerRunning := isTimerRunning s; firstCrackTime := firstCrackTime s;
     temperatureReadings := temperatureReadings s;
     currentTemp := v; roastHistory := roastHistory s;
     greenWeight := greenWeight s; ambientTemp := ambientTemp s;
     chargeTemp := chargeTemp s; roastType := roastType s;
     beanOrigin := beanOrigin s; roastedWeight := roastedWeight s;
     roastNotes := roastNotes s; localStorage := localStorage s |}.

Definition setRoastHistory (v : list RoastData) (s : State) : State :=
  {| appState := appState s; roastTimer := roastTimer s;
     isTimerRunning := isTimerRunning s; firstCrackTime := firstCrackTime s;
     temperatureReadings := temperatureReadings s;
     currentTemp := currentTemp s; roastHistory := v;
     greenWeight := greenWeight s; ambientTemp := ambientTemp s;
     chargeTemp := chargeTemp s; roastType := roastType s;
     beanOrigin := beanOrigin s; roastedWeight := roastedWeight s;
     roastNotes := roastNotes s; localStorage := localStorage s |}.

Definition setGreenWeight (v : string) (s : State) : State :=
  {| appState := appState s; roastTimer := roastTimer s;
     isTimerRunning := isTimerRunning s; firstCrackTime := firstCrackTime s;
     temperatureReadings := temperatureReadings s;
     currentTemp := currentTemp s; roastHistory := roastHistory s;
     greenWeight := v; ambientTemp := ambientTemp s;
     chargeTemp := chargeTemp s; roastType := roastType s;
     beanOrigin := beanOrigin s; roastedWeight := roastedWeight s;
     roastNotes := roastNotes s; localStorage := localStorage s |}.

Definition setAmbientTemp (v : string) (s : State) : State :=
  {| appState := appState s; roastTimer := roastTimer s;
     isTimerRunning := isTimerRunning s; firstCrackTime := firstCrackTime s;
     temperatureReadings := temperatureReadings s;
     currentTemp := currentTemp s; roastHistory := roastHistory s;
     greenWeight := greenWeight s; ambientTemp := v;
     chargeTemp := chargeTemp s; roastType := roastType s;
     beanOrigin := beanOrigin s; roastedWeight := roastedWeight s;
     roastNotes := roastNotes s; localStorage := localStorage s |}.

Definition setChargeTemp (v : string) (s : State) : State :=
  {| appState := appState s; roastTimer := roastTimer s;
     isTimerRunning := isTimerRunning s; firstCrackTime := firstCrackTime s;
     temperatureReadings := temperatureReadings s;
     currentTemp := currentTemp s; roastHistory := roastHistory s;
     greenWeight := greenWeight s; ambientTemp := ambientTemp s;
     chargeTemp := v; roastType := roastType s;
     beanOrigin := beanOrigin s; roastedWeight := roastedWeight s;
     roastNotes := roastNotes s; localStorage := localStorage s |}.

Definition setRoastType (v : string) (s : State) : State :=
  {| appState := appState s; roastTimer := roastTimer s;
     isTimerRunning := isTimerRunning s; firstCrackTime := firstCrackTime s;
     temperatureReadings := temperatureReadings s;
     currentTemp := currentTemp s; roastHistory := roastHistory s;
     greenWeight := greenWeight s; ambientTemp := ambientTemp s;
     chargeTemp := chargeTemp s; roastType := v;
     beanOrigin := beanOrigin s; roastedWeight := roastedWeight s;
     roastNotes := roastNotes s; localStorage := localStorage s |}.

Definition setBeanOrigin (v : string) (s : State) : State :=
  {| appState := appState s; roastTimer := roastTimer s;
     isTimerRunning := isTimerRunning s; firstCrackTime := firstCrackTime s;
     temperatureReadings := temperatureReadings s;
     currentTemp := currentTemp s; roastHistory := roastHistory s;
     greenWeight := greenWeight s; ambientTemp := ambientTemp s;
     chargeTemp := chargeTemp s; roastType := roastType s;
     beanOrigin := v; roastedWeight := roastedWeight s;
     roastNotes := roastNotes s; localStorage := localStorage s |}.

Definition setRoastedWeight (v : string) (s : State) : State :=
  {| appState := appState s; roastTimer := roastTimer s;
     isTimerRunning := isTimerRunning s; firstCrackTime := firstCrackTime s;
     temperatureReadings := temperatureReadings s;
     currentTemp := currentTemp s; roastHistory := roastHistory s;
     greenWeight := greenWeight s; ambientTemp := ambientTemp s;
     chargeTemp := chargeTemp s; roastType := roastType s;
     beanOrigin := beanOrigin s; roastedWeight := v;
     roastNotes := roastNotes s; localStorage := localStorage s |}.

Definition setRoastNotes (v : string) (s : State) : State :=
  {| appState := appState s; roastTimer := roastTimer s;
     isTimerRunning := isTimerRunning s; firstCrackTime := firstCrackTime s;
     temperatureReadings := temperatureReadings s;
     currentTemp := currentTemp s; roastHistory := roastHistory s;
     greenWeight := greenWeight s; ambientTemp := ambientTemp s;
     chargeTemp := chargeTemp s; roastType := roastType s;
     beanOrigin := beanOrigin s; roastedWeight := roastedWeight s;
     roastNotes := v; localStorage := localStorage s |}.

Definition setLocalStorage (v : option (list RoastData)) (s : State) : State :=
  {| appState := appState s; roastTimer := roastTimer s;
     isTimerRunning := isTimerRunning s; firstCrackTime := firstCrackTime s;
     temperatureReadings := temperatureReadings s;
     currentTemp := currentTemp s; roastHistory := roastHistory s;
     greenWeight := greenWeight s; ambientTemp := ambientTemp s;
     chargeTemp := chargeTemp s; roastType := roastType s;
     beanOrigin := beanOrigin s; roastedWeight := roastedWeight s;
     roastNotes := roastNotes s; localStorage := v |}.

(** ** Metrics *)

(** The object [getPredictions] returns; in a module because [development]
    is also a roast phase. *)
Module Predictions.
Record t := {
  firstCrack : float;
  totalTime : float;
  development : Z
}.
End Predictions.

Definition getPredictions (s : State) : Predictions.t :=
  let weight := JS.or_zero (JS.parseFloat (greenWeight s)) in
  let charge := JS.or_zero (JS.parseFloat (chargeTemp s)) in
  let baseTime := (if 500 <? weight then 720 else 660)%float in
  let tempAdjustment := ((charge - 200) * 0.5)%float in
  let estimatedFirstCrack := (baseTime * 0.8 + tempAdjustment)%float in
  let estimatedTotal := (baseTime + tempAdjustment)%float in
  let suggestedDevelopment :=
    if String.eqb (roastType s) "Light" then 15
    else if String.eqb (roastType s) "Medium" then 18 else 22 in
  {| Predictions.firstCrack := JS.Math_max estimatedFirstCrack 480;
     Predictions.totalTime := JS.Math_max estimatedTotal 600;
     Predictions.development := suggestedDevelopment |}.

(** [!firstCrackTime] on a [number | null]: true for [null] and for 0.  In
    the two functions that test it, the mark is read only where the test
    has failed, so their [None] branch after the test is never taken. *)
Definition falsy (t : option Z) : bool :=
  match t with
  | None => true
  | Some v => v =? 0
  end.

Definition getCurrentPhase (s : State) : RoastPhase :=
  if falsy (firstCrackTime s) then drying
  else
    match firstCrackTime s with
    | Some fc => if roastTimer s <? fc then maillard else development
    | None => drying
    end.

Definition getDevelopmentPercent (s : State) : float :=
  if falsy (firstCrackTime s) then 0%float
  else
    match firstCrackTime s with
    | Some fc =>
        let developmentTime := roastTimer s - fc in
        JS.Math_round
          (JS.of_Z developmentTime / JS.of_Z (roastTimer s) * 100)%float
    | None => 0%float
    end.

(** [slice(-2)]: the last two elements (all of them when there are fewer). *)
Definition slice_last2 {A} (l : list A) : list A :=
  skipn (List.length l - 2) l.

(** The last branch is not taken: [slice(-2)] of two or more readings has
    two elements ([slice_last2_app]). *)
Definition getRateOfRise (s : State) : float :=
  if (List.length (temperatureReadings s) <? 2)%nat then 0%float
  else
    match slice_last2 (temperatureReadings s) with
    | [r0; r1] =>
        let timeDiff := time r1 - time r0 in
        let tempDiff := (temperature r1 - temperature r0)%float in
        JS.Math_round (tempDiff / JS.of_Z timeDiff * 60)%float
    | _ => nan
    end.

(** ** Handlers

    The setters of one handler are applied together at the next render and
    every value a handler reads is the one of the render it was created in:
    a handler is a function of the state it is called in. *)

Definition nonempty (v : string) : bool :=
  negb (String.eqb v "").

Definition startRoast (s : State) : State :=
  let s1 := setAppState roasting (setIsTimerRunning true s) in
  if nonempty (chargeTemp s) then
    setTemperatureReadings
      [{| time := 0; temperature := JS.parseFloat (chargeTemp s) |}] s1
  else s1.

Definition stopRoast (s : State) : State :=
  setIsTimerRunning false s.

Definition resetRoast (s : State) : State :=
  setAppState setup
    (setCurrentTemp ""
       (setTemperatureReadings []
          (setFirstCrackTime None
             (setRoastTimer 0 (setIsTimerRunning false s))))).

Definition markFirstCrack (s : State) : State :=
  setFirstCrackTime (Some (roastTimer s)) s.

Definition addTemperatureReading (s : State) : State :=
  if nonempty (currentTemp s)
     && negb (JS.isNaN (JS.parseFloat (currentTemp s)))
  then
    setCurrentTemp ""
      (setTemperatureReadings
         (temperatureReadings s ++
          [{| time := roastTimer s;
              temperature := JS.parseFloat (currentTemp s) |}]) s)
  else s.

Definition finishRoast (s : State) : State :=
  setAppState completion (setIsTimerRunning false s).

Definition proceedToSummary (s : State) : State :=
  setAppState summary s.

(** [firstCrackTime || 0]. *)
Definition or_0 (t : option Z) : Z :=
  match t with
  | Some v => v
  | None => 0
  end.

(** [id] and [date] are the clock readings [Date.now().toString()] and
    [new Date().toISOString()]. *)
Definition saveRoast (id date : string) (s : State) : State :=
  let weightLoss :=
    ((JS.parseFloat (greenWeight s) - JS.parseFloat (roastedWeight s))
     / JS.parseFloat (greenWeight s) * 100)%float in
  let roastData :=
    {| rd_id := id;
       rd_date := date;
       rd_greenWeight := JS.parseFloat (greenWeight s);
       rd_roastedWeight := JS.parseFloat (roastedWeight s);
       rd_ambientTemp := JS.parseFloat (ambientTemp s);
       rd_chargeTemp := JS.parseFloat (chargeTemp s);
       rd_roastType := roastType s;
       rd_beanOrigin := beanOrigin s;
       rd_totalTime := roastTimer s;
       rd_firstCrackTime := or_0 (firstCrackTime s);
       rd_developmentPercent := getDevelopmentPercent s;
       rd_weightLoss := weightLoss;
       rd_notes := roastNotes s;
       rd_temperatureReadings := temperatureReadings s |} in
  let updatedHistory := roastHistory s ++ [roastData] in
  resetRoast
    (setLocalStorage (Some updatedHistory)
       (setRoastHistory updatedHistory s)).

Definition deleteRoast (id : string) (s : State) : State :=
  let updatedHistory :=
    filter (fun roast => negb (String.eqb (rd_id roast) id))
      (roastHistory s) in
  setLocalStorage (Some updatedHistory) (setRoastHistory updatedHistory s).

Definition clearAllRoasts (s : State) : State :=
  setLocalStorage None (setRoastHistory [] s).

(** The interval callback, installed while [isTimerRunning]. *)
Definition tick (s : State) : State :=
  if isTimerRunning s then setRoastTimer (roastTimer s + 1) s else s.

(** ** Controls

    What the operator and the timer can do.  A panel is rendered in one
    [appState] only, and a [disabled] button fires no handler. *)

Inductive Event :=
  | Tick
  | Navigate (key : AppState)
  | ChangeGreenWeight (v : string)
  | ChangeAmbientTemp (v : string)
  | ChangeChargeTemp (v : string)
  | ChangeRoastType (v : string)
  | ChangeBeanOrigin (v : string)
  | ClickStart
  | ClickPauseResume
  | ClickFirstCrack
  | ClickReset
  | ChangeCurrentTemp (v : string)
  | ClickLogTemp
  | ClickFinish
  | ChangeRoastedWeight (v : string)
  | ClickSummary
  | ChangeRoastNotes (v : string)
  | ClickSave (id date : string)
  | ClickClearAll
  | ClickDelete (id : string).

Definition in_panel (p : AppState) (s : State) : bool :=
  match p, appState s with
  | setup, setup | roasting, roasting | completion, completion
  | summary, summary | history, history => true
  | _, _ => false
  end.

(** The three navigation buttons; the one to [roasting] is disabled while
    the green weight or the charge temperature is empty. *)
Definition navigate (key : AppState) (s : State) : State :=
  match key with
  | setup | history => setAppState key s
  | roasting =>
      if nonempty (greenWeight s) && nonempty (chargeTemp s)
      then setAppState roasting s else s
  | _ => s
  end.

Definition is_null (t : option Z) : bool :=
  match t with
  | None => true
  | Some _ => false
  end.

Definition dispatch (e : Event) (s : State) : State :=
  match e with
  | Tick => tick s
  | Navigate key => navigate key s
  | ChangeGreenWeight v => if in_panel setup s then setGreenWeight v s else s
  | ChangeAmbientTemp v => if in_panel setup s then setAmbientTemp v s else s
  | ChangeChargeTemp v => if in_panel setup s then setChargeTemp v s else s
  | ChangeRoastType v => if in_panel setup s then setRoastType v s else s
  | ChangeBeanOrigin v => if in_panel setup s then setBeanOrigin v s else s
  | ClickStart =>
      if in_panel setup s
         && nonempty (greenWeight s) && nonempty (chargeTemp s)
      then startRoast s else s
  | ClickPauseResume =>
      if in_panel roasting s then
        (if isTimerRunning s then stopRoast s else setIsTimerRunning true s)
      else s
  | ClickFirstCrack =>
      if in_panel roasting s
         && isTimerRunning s && is_null (firstCrackTime s)
      then markFirstCrack s else s
  | ClickReset => if in_panel roasting s then resetRoast s else s
  | ChangeCurrentTemp v =>
      if in_panel roasting s then setCurrentTemp v s else s
  | ClickLogTemp =>
      if in_panel roasting s
         && nonempty (currentTemp s)
         && negb (JS.isNaN (JS.parseFloat (currentTemp s)))
      then addTemperatureReading s else s
  | ClickFinish => if in_panel roasting s then finishRoast s else s
  | ChangeRoastedWeight v =>
      if in_panel completion s then setRoastedWeight v s else s
  | ClickSummary =>
      if in_panel completion s && nonempty (roastedWeight s)
      then proceedToSummary s else s
  | ChangeRoastNotes v =>
      if in_panel summary s then setRoastNotes v s else s
  | ClickSave id date => if in_panel summary s then saveRoast id date s else s
  | ClickClearAll =>
      if in_panel history s && (0 <? List.length (roastHistory s))%nat
      then clearAllRoasts s else s
  | ClickDelete id => if in_panel history s then deleteRoast id s else s
  end.

(** The state after a sequence of events, first event first. *)
Definition run (es : list Event) (s : State) : State :=
  fold_left (fun st e => dispatch e st) es s.

Inductive reachable : State -> Prop :=
  | reach_initial : forall stored, reachable (initial stored)
  | reach_step : forall s e, reachable s -> reachable (dispatch e s).

(** ** Session invariants *)

Fixpoint nondecreasing (l : list Z) : Prop :=
  match l with
  | [] => True
  | x :: r =>
      match r with
      | [] => True
      | y :: _ => x <= y /\ nondecreasing r
      end
  end.

Record session_inv (s : State) : Prop := {
  inv_timer : 0 <= roastTimer s;
  inv_sorted : nondecreasing (map time (temperatureReadings s));
  inv_readings :
    Forall (fun r => 0 <= time r <= roastTimer s) (temperatureReadings s);
  inv_crack : forall fc, firstCrackTime s = Some fc -> 0 <= fc <= roastTimer s
}.

(** ** The timer display

    [formatTime] is applied to the timer and to the times copied from it,
    which are integers: [Math.floor (seconds / 60)] is the floor division
    and [%] the remainder with the sign of the dividend. *)

Definition digit_char (d : Z) : ascii :=
  ascii_of_N (Z.to_N (48 + d)).

(** The decimal digits of [n >= 0], most significant first, put before
    [acc]; the fuel is the number of digits that may follow the first. *)
Fixpoint to_digits (fuel : nat) (n : Z) (acc : string) : string :=
  let acc' := String (digit_char (n mod 10)) acc in
  match fuel with
  | O => acc'
  | S f => if n <? 10 then acc' else to_digits f (n / 10) acc'
  end.

(** [toString] of an integer: a decimal numeral has no more digits than a
    binary one. *)
Definition toString (n : Z) : string :=
  if n <? 0 then String "-" (to_digits (Z.to_nat (Z.log2 (- n))) (- n) "")
  else to_digits (Z.to_nat (Z.log2 n)) n "".

(** [padStart(2, '0')]. *)
Definition padStart2 (v : string) : string :=
  match v with
  | EmptyString => "00"
  | String c EmptyString => String "0" v
  | _ => v
  end.

Definition formatTime (seconds : Z) : string :=
  let mins := seconds / 60 in
  let secs := Z.rem seconds 60 in
  (padStart2 (toString mins) ++ ":" ++ padStart2 (toString secs))%string.

(** ** Further invariants *)

(** The completion and summary panels are shown with the timer stopped. *)
Definition timer_frozen (s : State) : Prop :=
  match appState s with
  | completion | summary => isTimerRunning s = false
  | _ => True
  end.

(** The roasting, completion and summary panels are shown with the green
    weight and the charge temperature entered, the summary panel also with
    the roasted weight entered. *)
Definition form_filled (s : State) : Prop :=
  match appState s with
  | roasting | completion =>
      greenWeight s <> ""%string /\ chargeTemp s <> ""%string
  | summary =>
      greenWeight s <> ""%string /\ chargeTemp s <> ""%string /\
      roastedWeight s <> ""%string
  | _ => True
  end.

(** The storage entry is in step with the history shown: absent with an
    empty history, or last written with the history shown. *)
Definition written_through (s : State) : Prop :=
  match localStorage s with
  | Some h => h = roastHistory s
  | None => roastHistory s = []
  end.

(** An archived roast is well formed: the first-crack time lies within the
    total time, and the readings are in time order within the total time. *)
Record record_inv (r : RoastData) : Prop := {
  rec_crack : 0 <= rd_firstCrackTime r <= rd_totalTime r;
  rec_sorted : nondecreasing (map time (rd_temperatureReadings r));
  rec_readings :
    Forall (fun x => 0 <= time x <= rd_totalTime r)
      (rd_temperatureReadings r)
}.

(** ** The input elements

    The five numeric fields are inputs of type number.  Such an input hands
    [onChange] the text typed when it is a valid floating-point number (an
    optional minus sign, digits with an optional fraction or a fraction
    alone, an optional exponent) whose value is finite, and the empty text
    otherwise.  The profile comes from a select with three options. *)

Definition all_read (r : string) : bool :=
  match r with
  | EmptyString => true
  | String _ _ => false
  end.

Definition valid_exponent (r : string) : bool :=
  match r with
  | EmptyString => true
  | String c r1 =>
      (Ascii.eqb c "e" || Ascii.eqb c "E")%char
      && (let r2 := match r1 with
                    | String "+" r' | String "-" r' => r'
                    | _ => r1
                    end in
          let '(_, ne, r3) := JS.read_digits r2 0 0 in
          (0 <? ne) && all_read r3)
  end.

Definition valid_number_text (v : string) : bool :=
  let body := match v with String "-" r => r | _ => v end in
  let '(_, ni, r1) := JS.read_digits body 0 0 in
  match r1 with
  | String "." r =>
      let '(_, nf, r2) := JS.read_digits r 0 0 in
      (0 <? nf) && valid_exponent r2
  | _ => (0 <? ni) && valid_exponent r1
  end.

(** The text an input of type number hands to [onChange]. *)
Definition number_input (typed : string) : string :=
  if valid_number_text typed && JS.isFinite (JS.parseFloat typed)
  then typed else ""%string.

(** A text such an input can deliver. *)
Definition delivered (v : string) : bool :=
  String.eqb (number_input v) v.

(** The events the rendered component can receive. *)
Definition from_inputs (e : Event) : bool :=
  match e with
  | ChangeGreenWeight v | ChangeAmbientTemp v | ChangeChargeTemp v
  | ChangeCurrentTemp v | ChangeRoastedWeight v => delivered v
  | ChangeRoastType v =>
      String.eqb v "Light" || String.eqb v "Medium" || String.eqb v "Dark"
  | _ => true
  end.

(** The states the rendered component reaches. *)
Inductive on_screen : State -> Prop :=
  | screen_initial : forall stored, on_screen (initial stored)
  | screen_step : forall s e,
      on_screen s -> from_inputs e = true -> on_screen (dispatch e s).

(** The numeric texts of the state are texts the inputs deliver. *)
Record texts_delivered (s : State) : Prop := {
  txt_green : delivered (greenWeight s) = true;
  txt_ambient : delivered (ambientTemp s) = true;
  txt_charge : delivered (chargeTemp s) = true;
  txt_current : delivered (currentTemp s) = true;
  txt_roasted : delivered (roastedWeight s) = true
}.

(** ** Facts about binary64 arithmetic *)

Section Rounding.

Variables prec emax : Z.

Lemma shr_1_nonneg (mrs : shr_record) :
  0 <= shr_m mrs -> 0 <= shr_m (shr_1 mrs).
Proof.
  destruct mrs as [m r s]; simpl.
  destruct m as [|p|p]; [ | destruct p | ]; simpl; lia.
Qed.

Lemma iter_shr_1_nonneg (p : positive) :
  forall mrs, 0 <= shr_m mrs -> 0 <= shr_m (iter_pos shr_1 p mrs).
Proof.
  induction p as [p IH|p IH|]; intros mrs H; simpl.
  - apply IH, IH, shr_1_nonneg, H.
  - apply IH, IH, H.
  - apply shr_1_nonneg, H.
Qed.

Lemma shr_fexp_nonneg (m e : Z) (l : location) :
  0 <= m -> 0 <= shr_m (fst (shr_fexp prec emax m e l)).
Proof.
  intros H. unfold shr_fexp, shr.
  assert (H0 : 0 <= shr_m (shr_record_of_loc m l))
    by (destruct l as [|[]]; exact H).
  destruct (fexp prec emax (Zdigits2 m + e) - e) as [|p|p]; simpl; trivial.
  apply iter_shr_1_nonneg, H0.
Qed.

Lemma round_nearest_even_nonneg (m : Z) (l : location) :
  0 <= m -> 0 <= round_nearest_even m l.
Proof.
  intros H. destruct l as [|[]]; simpl; try lia.
  destruct (Z.even m); lia.
Qed.

Lemma binary_round_aux_not_nan (sx : bool) (mx ex : Z) (lx : location) :
  0 <= mx -> binary_round_aux prec emax sx mx ex lx <> S754_nan.
Proof.
  intros H. unfold binary_round_aux.
  pose proof (shr_fexp_nonneg mx ex lx H) as H1.
  destruct (shr_fexp prec emax mx ex lx) as [mrs' e']. simpl in H1.
  pose proof (shr_fexp_nonneg _ e' loc_Exact
                (round_nearest_even_nonneg _ (loc_of_shr_record mrs') H1))
    as H2.
  destruct (shr_fexp prec emax _ e' loc_Exact) as [mrs'' e'']. simpl in H2.
  destruct (shr_m mrs'') as [|p|p]; try discriminate; try lia.
  destruct (e'' <=? emax - prec); discriminate.
Qed.

Lemma binary_normalize_not_nan (m e : Z) (sz : bool) :
  binary_normalize prec emax m e sz <> S754_nan.
Proof.
  destruct m as [|p|p]; simpl; try discriminate; unfold binary_round;
    destruct (shl_align _ _ _) as [mz ez];
    apply binary_round_aux_not_nan; lia.
Qed.

Lemma SFadd_finite_l (s : bool) (m : positive) (e : Z) (y : spec_float) :
  y <> S754_nan -> SFadd prec emax (S754_finite s m e) y <> S754_nan.
Proof.
  intros H. destruct y; simpl; try discriminate; try congruence.
  apply binary_normalize_not_nan.
Qed.

Lemma SFsub_finite_r (x : spec_float) (s : bool) (m : positive) (e : Z) :
  x <> S754_nan -> SFsub prec emax x (S754_finite s m e) <> S754_nan.
Proof.
  intros H. destruct x; simpl; try discriminate; try congruence.
  apply binary_normalize_not_nan.
Qed.

Lemma SFmul_finite_r (x : spec_float) (s : bool) (m : positive) (e : Z) :
  x <> S754_nan -> SFmul prec emax x (S754_finite s m e) <> S754_nan.
Proof.
  intros H. destruct x; simpl; try discriminate; try congruence.
  apply binary_round_aux_not_nan; lia.
Qed.

End Rounding.

Lemma SFcompare_antisym (x y : spec_float) (c : comparison) :
  SFcompare x y = Some c -> SFcompare y x = Some (CompOpp c).
Proof.
  destruct x as [sx|sx| |sx mx ex], y as [sy|sy| |sy my ey]; simpl;
    try discriminate;
    try (intros [= <-]; try destruct sx; try destruct sy; reflexivity).
  intros [= <-]. f_equal.
  rewrite (Z.compare_antisym ex ey).
  rewrite !Pos.compare_cont_spec. simpl.
  rewrite (Pos.compare_antisym mx my).
  destruct sx, sy; simpl; trivial;
    destruct (ex ?= ey); simpl; trivial;
    destruct (mx ?= my)%positive; reflexivity.
Qed.

Lemma SFcompare_some (x y : spec_float) :
  x <> S754_nan -> y <> S754_nan -> exists c, SFcompare x y = Some c.
Proof.
  intros Hx Hy.
  destruct x, y; simpl; try congruence; eexists; reflexivity.
Qed.

Lemma SFcompare_refl (x : spec_float) :
  x <> S754_nan -> SFcompare x x = Some Eq.
Proof.
  intros Hx. destruct (SFcompare_some x x Hx Hx) as [c Hc].
  pose proof (SFcompare_antisym _ _ _ Hc) as Hc'.
  rewrite Hc in Hc'. destruct c; try discriminate. exact Hc.
Qed.

Lemma is_nan_spec (x : float) :
  PrimFloat.is_nan x =
  match Prim2SF x with S754_nan => true | _ => false end.
Proof.
  unfold PrimFloat.is_nan. rewrite FloatAxioms.eqb_spec. unfold SFeqb.
  destruct (Prim2SF x) eqn:E; try reflexivity;
    rewrite SFcompare_refl by discriminate; reflexivity.
Qed.

Lemma is_infinity_spec (x : float) :
  PrimFloat.is_infinity x =
  match Prim2SF x with S754_infinity _ => true | _ => false end.
Proof.
  unfold PrimFloat.is_infinity.
  rewrite FloatAxioms.eqb_spec, abs_spec.
  change (Prim2SF infinity) with (S754_infinity false).
  destruct (Prim2SF x); reflexivity.
Qed.

Lemma not_nan_spec (x : float) :
  PrimFloat.is_nan x = false <-> Prim2SF x <> S754_nan.
Proof.
  rewrite is_nan_spec. destruct (Prim2SF x); split; congruence.
Qed.

Lemma is_zero_spec (x : float) :
  PrimFloat.is_zero x =
  match Prim2SF x with S754_zero _ => true | _ => false end.
Proof.
  unfold PrimFloat.is_zero. rewrite FloatAxioms.eqb_spec.
  change (Prim2SF zero) with (S754_zero false).
  destruct (Prim2SF x) as [b|b| |b m e]; try destruct b; reflexivity.
Qed.

(** [x || 0] under a comparison with a positive constant, and under a
    subtraction: a zero of either sign behaves as 0, and NaN compares as
    0 does. *)

Lemma ltb_or_zero (c x : float) (m : positive) (e : Z) :
  Prim2SF c = S754_finite false m e ->
  PrimFloat.ltb c (JS.or_zero x) = PrimFloat.ltb c x.
Proof.
  intros Hc. unfold JS.or_zero, JS.truthy.
  rewrite is_nan_spec, is_zero_spec.
  destruct (Prim2SF x) eqn:E; simpl; trivial;
    rewrite !ltb_spec, Hc, E; reflexivity.
Qed.

Lemma sub_or_zero (x c : float) (s : bool) (m : positive) (e : Z) :
  Prim2SF c = S754_finite s m e ->
  PrimFloat.is_nan x = false ->
  (JS.or_zero x - c = x - c)%float.
Proof.
  intros Hc Hx. unfold JS.or_zero, JS.truthy. rewrite Hx. simpl.
  destruct (PrimFloat.is_zero x) eqn:Ez; simpl; trivial.
  apply Prim2SF_inj. rewrite !sub_spec, Hc.
  change (Prim2SF 0) with (S754_zero false).
  rewrite is_zero_spec in Ez.
  destruct (Prim2SF x); try discriminate. reflexivity.
Qed.

(** Operations with a finite constant keep a number a number. *)

Lemma sub_finite_not_nan (x c : float) (s : bool) (m : positive) (e : Z) :
  Prim2SF c = S754_finite s m e ->
  PrimFloat.is_nan x = false -> PrimFloat.is_nan (x - c) = false.
Proof.
  rewrite !not_nan_spec, sub_spec. intros -> H.
  apply SFsub_finite_r, H.
Qed.

Lemma mul_finite_not_nan (x c : float) (s : bool) (m : positive) (e : Z) :
  Prim2SF c = S754_finite s m e ->
  PrimFloat.is_nan x = false -> PrimFloat.is_nan (x * c) = false.
Proof.
  rewrite !not_nan_spec, mul_spec. intros -> H.
  apply SFmul_finite_r, H.
Qed.

Lemma add_finite_not_nan (c y : float) (s : bool) (m : positive) (e : Z) :
  Prim2SF c = S754_finite s m e ->
  PrimFloat.is_nan y = false -> PrimFloat.is_nan (c + y) = false.
Proof.
  rewrite !not_nan_spec, add_spec. intros -> H.
  apply SFadd_finite_l, H.
Qed.

Lemma or_zero_not_nan (x : float) :
  PrimFloat.is_nan (JS.or_zero x) = false.
Proof.
  unfold JS.or_zero, JS.truthy.
  destruct (PrimFloat.is_nan x) eqn:E; simpl; trivial.
  destruct (PrimFloat.is_zero x); simpl; trivial.
Qed.

Lemma leb_refl_not_nan (x : float) :
  PrimFloat.is_nan x = false -> PrimFloat.leb x x = true.
Proof.
  rewrite not_nan_spec, leb_spec. intros H. unfold SFleb.
  rewrite SFcompare_refl by exact H. reflexivity.
Qed.

(** [Math.max] of two numbers is at least its second argument. *)
Lemma Math_max_ge_r (x y : float) :
  PrimFloat.is_nan x = false -> PrimFloat.is_nan y = false ->
  PrimFloat.leb y (JS.Math_max x y) = true.
Proof.
  intros Hx Hy. unfold JS.Math_max. rewrite Hx, Hy. simpl.
  destruct (PrimFloat.ltb x y) eqn:Exy.
  { apply leb_refl_not_nan, Hy. }
  destruct (PrimFloat.ltb y x) eqn:Eyx.
  { rewrite ltb_spec in Eyx. rewrite leb_spec.
    unfold SFltb in Eyx. unfold SFleb.
    destruct (SFcompare (Prim2SF y) (Prim2SF x)) as [[]|]; congruence. }
  destruct (PrimFloat.is_zero x && PrimFloat.get_sign x).
  { apply leb_refl_not_nan, Hy. }
  rewrite ltb_spec in Exy, Eyx. rewrite leb_spec.
  apply not_nan_spec in Hx, Hy.
  destruct (SFcompare_some _ _ Hy Hx) as [c Hc].
  pose proof (SFcompare_antisym _ _ _ Hc) as Hc'.
  unfold SFltb in Exy, Eyx. unfold SFleb.
  rewrite Hc in *. rewrite Hc' in *.
  destruct c; simpl in *; congruence.
Qed.

(** Dividing by zero and scaling: the rounded result is NaN or infinite. *)
Lemma round_div_zero_not_finite (x c : float) (s : bool) (m : positive)
  (e : Z) :
  Prim2SF c = S754_finite s m e ->
  JS.isFinite (JS.Math_round (x / 0 * c)) = false.
Proof.
  intros Hc.
  assert (H : Prim2SF (x / 0 * c) = S754_nan
              \/ exists b, Prim2SF (x / 0 * c) = S754_infinity b).
  { rewrite mul_spec, div_spec, Hc.
    change (Prim2SF 0) with (S754_zero false).
    destruct (Prim2SF x); simpl; eauto. }
  unfold JS.Math_round, JS.isFinite.
  rewrite is_nan_spec, is_infinity_spec.
  destruct H as [H|[b H]]; rewrite H; rewrite ?H; reflexivity.
Qed.

(** ** The built-ins on known values *)

Example parseFloat_values :
  JS.parseFloat "200" = 200%float /\
  JS.parseFloat "195.5" = 195.5%float /\
  JS.parseFloat "0.1" = 0.1%float /\
  JS.parseFloat " -12.5e1 C" = (-125)%float /\
  JS.parseFloat ".5" = 0.5%float /\
  JS.parseFloat "1e" = 1%float /\
  JS.parseFloat "12abc" = 12%float /\
  JS.parseFloat "2.2250738585072014e-308" = 2.2250738585072014e-308%float /\
  JS.parseFloat "9007199254740993" = 9007199254740992%float /\
  JS.parseFloat "-Infinity" = neg_infinity /\
  JS.parseFloat "1e999" = infinity /\
  JS.parseFloat "" = nan /\
  JS.parseFloat "abc" = nan /\
  JS.parseFloat "." = nan.
Proof. repeat split; vm_compute; reflexivity. Qed.

Example Math_round_values :
  JS.Math_round 2.5 = 3%float /\
  JS.Math_round (-2.5) = (-2)%float /\
  JS.Math_round (-2.6) = (-3)%float /\
  JS.Math_round 0.49999999999999994 = 0%float /\
  JS.Math_round (-0.5) = neg_zero /\
  JS.Math_round 4503599627370495.5 = 4503599627370496%float /\
  JS.Math_round nan = nan /\
  JS.Math_round neg_infinity = neg_infinity.
Proof. repeat split; vm_compute; reflexivity. Qed.

Example Math_max_values :
  JS.Math_max 428 480 = 480%float /\
  JS.Math_max 695 600 = 695%float /\
  JS.Math_max neg_zero 0 = 0%float /\
  JS.Math_max 0 neg_zero = 0%float /\
  JS.Math_max nan 600 = nan /\
  JS.Math_max neg_infinity 600 = 600%float.
Proof. repeat split; vm_compute; reflexivity. Qed.

(** ** Facts about lists of readings *)

Lemma slice_last2_app {A} (l : list A) (a b : A) :
  slice_last2 (l ++ [a; b]) = [a; b].
Proof.
  unfold slice_last2. rewrite length_app. simpl.
  replace (List.length l + 2 - 2)%nat with (List.length l + 0)%nat by lia.
  rewrite skipn_app, skipn_all2 by lia.
  replace (List.length l + 0 - List.length l)%nat with 0%nat by lia.
  reflexivity.
Qed.

Lemma last_two_exist {A} (l : list A) :
  (2 <= List.length l)%nat -> exists l0 a b, l = l0 ++ [a; b].
Proof.
  intros H.
  destruct (exists_last (l := l)) as [l1 [b ->]];
    [ intros ->; simpl in H; lia | ].
  rewrite length_app in H; simpl in H.
  destruct (exists_last (l := l1)) as [l0 [a ->]];
    [ intros ->; simpl in H; lia | ].
  exists l0, a, b. rewrite <- app_assoc. reflexivity.
Qed.

Lemma nondecreasing_snoc (l : list Z) (t : Z) :
  nondecreasing l -> Forall (fun x => x <= t) l -> nondecreasing (l ++ [t]).
Proof.
  induction l as [|x r IH]; intros Hs Hb; simpl; trivial.
  inversion Hb as [|? ? Hx Hr]; subst.
  destruct r as [|y r']; simpl in *.
  - split; trivial.
  - destruct Hs as [Hxy Hs]. split; [exact Hxy|]. apply IH; assumption.
Qed.

(** ** The invariants are kept *)

Lemma session_inv_initial (stored : option (list RoastData)) :
  session_inv (initial stored).
Proof.
  constructor; simpl; try lia; try constructor; discriminate.
Qed.

Lemma session_inv_same (s s' : State) :
  roastTimer s' = roastTimer s ->
  temperatureReadings s' = temperatureReadings s ->
  firstCrackTime s' = firstCrackTime s ->
  session_inv s -> session_inv s'.
Proof.
  intros Ht Hr Hc [H1 H2 H3 H4].
  constructor; rewrite ?Ht, ?Hr, ?Hc; assumption.
Qed.

Lemma session_inv_tick (s : State) : session_inv s -> session_inv (tick s).
Proof.
  intros [H1 H2 H3 H4]. unfold tick.
  destruct (isTimerRunning s); [ | constructor; assumption ].
  constructor; simpl; try lia; trivial.
  - eapply Forall_impl; [ | exact H3 ]. simpl. intros r Hr. lia.
  - intros fc Hfc. specialize (H4 fc Hfc). lia.
Qed.

Lemma session_inv_startRoast (s : State) :
  session_inv s -> session_inv (startRoast s).
Proof.
  intros H. unfold startRoast.
  destruct (nonempty (chargeTemp s));
    [ | eapply session_inv_same; [ | | | exact H ]; reflexivity ].
  destruct H as [H1 H2 H3 H4].
  constructor; simpl; trivial.
  constructor; [ simpl; lia | constructor ].
Qed.

Lemma session_inv_resetRoast (s : State) : session_inv (resetRoast s).
Proof.
  constructor; simpl; try lia; try constructor; discriminate.
Qed.

Lemma session_inv_markFirstCrack (s : State) :
  session_inv s -> session_inv (markFirstCrack s).
Proof.
  intros [H1 H2 H3 H4]. constructor; simpl; trivial.
  intros fc [= <-]. lia.
Qed.

Lemma session_inv_addTemperatureReading (s : State) :
  session_inv s -> session_inv (addTemperatureReading s).
Proof.
  intros H. unfold addTemperatureReading.
  destruct (nonempty (currentTemp s)
            && negb (JS.isNaN (JS.parseFloat (currentTemp s)))); trivial.
  destruct H as [H1 H2 H3 H4]. constructor; simpl; trivial.
  - rewrite map_app. simpl. apply nondecreasing_snoc; trivial.
    apply Forall_map. eapply Forall_impl; [ | exact H3 ].
    simpl. intros r Hr. lia.
  - apply Forall_app. split; trivial.
    constructor; [ simpl; lia | constructor ].
Qed.

Lemma session_inv_dispatch (e : Event) (s : State) :
  session_inv s -> session_inv (dispatch e s).
Proof.
  intros H.
  destruct e; simpl; unfold navigate;
    repeat match goal with
           | |- session_inv (if ?c then _ else _) => destruct c
           | |- session_inv (match ?k with setup => _ | _ => _ end) =>
               destruct k
           end;
    trivial;
    try (eapply session_inv_same; [ | | | exact H ]; reflexivity).
  - apply session_inv_tick, H.
  - apply session_inv_startRoast, H.
  - apply session_inv_markFirstCrack, H.
  - apply session_inv_resetRoast.
  - apply session_inv_addTemperatureReading, H.
  - apply session_inv_resetRoast.
Qed.

Lemma reachable_run (es : list Event) :
  forall s, reachable s -> reachable (run es s).
Proof.
  induction es as [|e es IH]; intros s H; simpl; trivial.
  apply IH, reach_step, H.
Qed.

Lemma reachable_inv (s : State) : reachable s -> session_inv s.
Proof.
  induction 1 as [stored|s e _ IH].
  - apply session_inv_initial.
  - apply session_inv_dispatch, IH.
Qed.

(** ** Properties of the metrics and of the session operations *)

(** What [getCurrentPhase] computes, case by case. *)
Lemma getCurrentPhase_cases (s : State) :
  getCurrentPhase s =
  match firstCrackTime s with
  | None => drying
  | Some fc =>
      if fc =? 0 then drying
      else if roastTimer s <? fc then maillard else development
  end.
Proof.
  unfold getCurrentPhase, falsy. destruct (firstCrackTime s); reflexivity.
Qed.

(** C1, at the input where the code departs from it.  The operator starts a
    roast and presses the first-crack button within the first second: the
    mark is recorded as 0, the button is disabled from then on (the mark is
    not [null]), and three seconds later the phase is still drying, where
    the claim has development because 3 >= 0. *)
Theorem phase_after_mark_at_zero :
  let s := run [ChangeGreenWeight "400"; ChangeChargeTemp "200"; ClickStart;
                ClickFirstCrack; Tick; Tick; Tick] (initial None) in
  reachable s /\
  firstCrackTime s = Some 0 /\
  roastTimer s = 3 /\
  is_null (firstCrackTime s) = false /\
  getCurrentPhase s = drying.
Proof.
  split; [ apply reachable_run, reach_initial | ].
  repeat split; reflexivity.
Qed.

(** C2, as the code has it: [resetRoast] works in every state and returns to
    the setup stage with the timer at 0 and stopped, no first-crack mark, an
    empty temperature log and an empty pending temperature; the
    configuration fields, the completion fields and the history keep the
    values they had. *)
Theorem resetRoast_spec (s : State) :
  let s' := resetRoast s in
  (appState s' = setup /\
   roastTimer s' = 0 /\
   isTimerRunning s' = false /\
   firstCrackTime s' = None /\
   temperatureReadings s' = [] /\
   currentTemp s' = ""%string) /\
  (greenWeight s' = greenWeight s /\
   ambientTemp s' = ambientTemp s /\
   chargeTemp s' = chargeTemp s /\
   roastType s' = roastType s /\
   beanOrigin s' = beanOrigin s /\
   roastedWeight s' = roastedWeight s /\
   roastNotes s' = roastNotes s /\
   roastHistory s' = roastHistory s).
Proof.
  repeat split; reflexivity.
Qed.

(** C2 as stated fails: after a roast configured with 400 g of Kenyan beans
    charged at 200 degrees, finished, weighed and annotated, the reset the
    save button performs leaves all seven configuration and completion
    fields as they were, none at its empty default. *)
Lemma resetRoast_keeps_configuration :
  let s := run [ChangeGreenWeight "400"; ChangeAmbientTemp "21";
                ChangeChargeTemp "200"; ChangeRoastType "Dark";
                ChangeBeanOrigin "Kenya"; ClickStart; Tick; ClickFinish;
                ChangeRoastedWeight "340"; ClickSummary;
                ChangeRoastNotes "fruity"] (initial None) in
  let s' := resetRoast s in
  reachable s /\
  greenWeight s' = "400"%string /\
  ambientTemp s' = "21"%string /\
  chargeTemp s' = "200"%string /\
  roastType s' = "Dark"%string /\
  beanOrigin s' = "Kenya"%string /\
  roastedWeight s' = "340"%string /\
  roastNotes s' = "fruity"%string /\
  greenWeight s' <> greenWeight (initial None) /\
  roastType s' <> roastType (initial None) /\
  roastedWeight s' <> roastedWeight (initial None) /\
  roastNotes s' <> roastNotes (initial None).
Proof.
  split; [ apply reachable_run, reach_initial | ].
  repeat split; try reflexivity; discriminate.
Qed.

(** The handler alone has no guard: called on a marked session it would
    overwrite the mark.  Its only caller is the button below. *)
Lemma markFirstCrack_unguarded (s : State) :
  firstCrackTime (markFirstCrack s) = Some (roastTimer s).
Proof. reflexivity. Qed.

Lemma in_panel_true (p : AppState) (s : State) :
  in_panel p s = true <-> appState s = p.
Proof.
  unfold in_panel. destruct p, (appState s); split; congruence.
Qed.

Lemma is_null_true (t : option Z) : is_null t = true <-> t = None.
Proof. destruct t; split; simpl; congruence. Qed.

Lemma nonempty_true (v : string) : nonempty v = true <-> v <> ""%string.
Proof.
  unfold nonempty. destruct (String.eqb_spec v ""); split; simpl; congruence.
Qed.

(** C3.  The first-crack operation, as the operator has it (the button of
    the roasting panel, disabled unless the timer runs and no mark is set):
    it records the current timer value exactly when the session is in the
    roasting stage, the timer runs and no mark is set, changing nothing
    else; in every other case the state is unchanged.  So pressing twice
    leaves the mark of the first press. *)
Theorem markFirstCrack_once (s : State) :
  let s' := dispatch ClickFirstCrack s in
  (appState s = roasting -> isTimerRunning s = true ->
   firstCrackTime s = None ->
   s' = setFirstCrackTime (Some (roastTimer s)) s /\
   firstCrackTime s' = Some (roastTimer s)) /\
  (~ (appState s = roasting /\ isTimerRunning s = true /\
      firstCrackTime s = None) -> s' = s) /\
  dispatch ClickFirstCrack s' = s' /\
  firstCrackTime (dispatch ClickFirstCrack s') = firstCrackTime s'.
Proof.
  assert (Hno : forall t, ~ (appState t = roasting /\ isTimerRunning t = true
                        /\ firstCrackTime t = None) ->
                     dispatch ClickFirstCrack t = t).
  { intros t Hn. unfold dispatch.
    destruct (in_panel roasting t) eqn:E1; cbn [andb]; trivial.
    destruct (isTimerRunning t) eqn:E2; cbn [andb]; trivial.
    destruct (is_null (firstCrackTime t)) eqn:E3; cbn [andb]; trivial.
    exfalso. apply Hn. apply in_panel_true in E1.
    apply is_null_true in E3. repeat split; assumption. }
  assert (Hyes : appState s = roasting -> isTimerRunning s = true ->
                 firstCrackTime s = None ->
                 dispatch ClickFirstCrack s
                 = setFirstCrackTime (Some (roastTimer s)) s).
  { intros H1 H2 H3. unfold dispatch.
    apply in_panel_true in H1. rewrite H1, H2, H3. reflexivity. }
  assert (Htwice : dispatch ClickFirstCrack (dispatch ClickFirstCrack s)
                   = dispatch ClickFirstCrack s).
  { unfold dispatch.
    destruct (in_panel roasting s && isTimerRunning s
              && is_null (firstCrackTime s)) eqn:E.
    - simpl. rewrite andb_false_r. reflexivity.
    - rewrite E. reflexivity. }
  cbv zeta. repeat split.
  - apply Hyes; assumption.
  - rewrite Hyes by assumption. reflexivity.
  - apply Hno.
  - exact Htwice.
  - rewrite Htwice. reflexivity.
Qed.

(** C3 at a roast three seconds old: the first press records 3 and changes
    nothing else, a second press changes nothing; and on a paused timer the
    press changes nothing. *)
Lemma markFirstCrack_once_witness :
  let s := run [ChangeGreenWeight "400"; ChangeChargeTemp "200"; ClickStart;
                Tick; Tick; Tick] (initial None) in
  let s' := dispatch ClickFirstCrack s in
  let p := dispatch ClickPauseResume s in
  (s' = setFirstCrackTime (Some 3) s /\
   firstCrackTime s' = Some 3 /\
   dispatch ClickFirstCrack s' = s') /\
  dispatch ClickFirstCrack p = p.
Proof.
  cbv zeta. split.
  - destruct (markFirstCrack_once
                (run [ChangeGreenWeight "400"; ChangeChargeTemp "200";
                      ClickStart; Tick; Tick; Tick] (initial None)))
      as (H1 & _ & H3 & _).
    destruct (H1 eq_refl eq_refl eq_refl) as [Ha Hb].
    exact (conj Ha (conj Hb H3)).
  - destruct (markFirstCrack_once
                (dispatch ClickPauseResume
                   (run [ChangeGreenWeight "400"; ChangeChargeTemp "200";
                         ClickStart; Tick; Tick; Tick] (initial None))))
      as (_ & H2 & _).
    apply H2. intros (_ & H & _). discriminate H.
Defined.

(** The start button (setup panel, disabled while the green weight or the
    charge temperature is empty): in the setup stage with both texts
    non-empty it moves to the roasting stage, starts the timer and replaces
    the log by the single reading at time 0 with the parsed charge
    temperature, changing nothing else, the timer included.  In every other
    case the state is unchanged. *)
Lemma startRoast_click (s : State) :
  let s' := dispatch ClickStart s in
  let seed := {| time := 0; temperature := JS.parseFloat (chargeTemp s) |} in
  (appState s = setup -> greenWeight s <> ""%string ->
   chargeTemp s <> ""%string ->
   s' = setTemperatureReadings [seed]
          (setAppState roasting (setIsTimerRunning true s)) /\
   appState s' = roasting /\
   isTimerRunning s' = true /\
   temperatureReadings s' = [seed] /\
   roastTimer s' = roastTimer s /\
   (roastTimer s = 0 -> roastTimer s' = 0)) /\
  (~ (appState s = setup /\ greenWeight s <> ""%string /\
      chargeTemp s <> ""%string) -> s' = s).
Proof.
  cbv zeta. unfold dispatch. split.
  - intros H1 H2 H3.
    apply in_panel_true in H1. apply nonempty_true in H2, H3.
    rewrite H1, H2, H3. cbn [andb]. unfold startRoast. rewrite H3.
    repeat split. trivial.
  - intros Hn.
    destruct (in_panel setup s) eqn:E1; cbn [andb]; trivial.
    destruct (nonempty (greenWeight s)) eqn:E2; cbn [andb]; trivial.
    destruct (nonempty (chargeTemp s)) eqn:E3; cbn [andb]; trivial.
    exfalso. apply Hn. apply in_panel_true in E1.
    apply nonempty_true in E2, E3. repeat split; assumption.
Qed.

(** C5, as the code has it: 0 without a mark; 0 at time 0 in a session whose
    mark is not later than the timer; with a mark other than 0, the quotient
    (timer - mark) / timer, then its product by 100, each rounded to
    binary64, then [Math.round]; 17 for a mark at 600 and a timer at 720. *)
Theorem getDevelopmentPercent_spec (s : State) :
  (firstCrackTime s = None -> getDevelopmentPercent s = 0%float) /\
  (roastTimer s = 0 ->
   (forall fc, firstCrackTime s = Some fc -> 0 <= fc <= roastTimer s) ->
   getDevelopmentPercent s = 0%float) /\
  (forall fc, firstCrackTime s = Some fc -> fc <> 0 -> 0 < roastTimer s ->
   getDevelopmentPercent s
   = JS.Math_round
       (JS.of_Z (roastTimer s - fc) / JS.of_Z (roastTimer s) * 100)%float) /\
  (firstCrackTime s = Some 600 -> roastTimer s = 720 ->
   getDevelopmentPercent s = 17%float).
Proof.
  unfold getDevelopmentPercent, falsy. repeat split.
  - intros ->. reflexivity.
  - intros Ht Hfc. destruct (firstCrackTime s) as [fc|]; trivial.
    specialize (Hfc fc eq_refl).
    replace fc with 0 by lia. reflexivity.
  - intros fc -> Hfc _.
    destruct (Z.eqb_spec fc 0); [ contradiction | reflexivity ].
  - intros -> ->. vm_compute. reflexivity.
Qed.

(** C5 on the scenario of the specification (600 ticks, the mark, 120 more
    ticks: 17, which is the rounding of 120 / 720 * 100), on a fresh session
    and on a session marked in its first second. *)
Lemma getDevelopmentPercent_spec_witness :
  let s := run ([ChangeGreenWeight "400"; ChangeChargeTemp "200"; ClickStart]
                ++ repeat Tick 600 ++ [ClickFirstCrack] ++ repeat Tick 120)
             (initial None) in
  let z := run [ChangeGreenWeight "400"; ChangeChargeTemp "200"; ClickStart;
                ClickFirstCrack] (initial None) in
  (firstCrackTime s = Some 600 /\
   roastTimer s = 720 /\
   getDevelopmentPercent s = 17%float /\
   getDevelopmentPercent s
   = JS.Math_round (JS.of_Z 120 / JS.of_Z 720 * 100)%float) /\
  getDevelopmentPercent (initial None) = 0%float /\
  (firstCrackTime z = Some 0 /\ getDevelopmentPercent z = 0%float).
Proof.
  cbv zeta.
  assert (H1 : firstCrackTime
                 (run ([ChangeGreenWeight "400"; ChangeChargeTemp "200";
                        ClickStart] ++ repeat Tick 600 ++ [ClickFirstCrack]
                       ++ repeat Tick 120) (initial None)) = Some 600)
    by (vm_compute; reflexivity).
  assert (H2 : roastTimer
                 (run ([ChangeGreenWeight "400"; ChangeChargeTemp "200";
                        ClickStart] ++ repeat Tick 600 ++ [ClickFirstCrack]
                       ++ repeat Tick 120) (initial None)) = 720)
    by (vm_compute; reflexivity).
  repeat apply conj.
  - exact H1.
  - exact H2.
  - exact (proj2 (proj2 (proj2 (getDevelopmentPercent_spec _))) H1 H2).
  - rewrite (proj1 (proj2 (proj2 (getDevelopmentPercent_spec _))) 600 H1);
      [ rewrite H2; reflexivity | discriminate | rewrite H2; reflexivity ].
  - exact (proj1 (getDevelopmentPercent_spec (initial None)) eq_refl).
  - reflexivity.
  - apply (proj1 (proj2 (getDevelopmentPercent_spec _))); [ reflexivity | ].
    intros fc [= <-]. split; discriminate.
Defined.

(** C5 as stated fails: with the mark at 85 and the timer at 200 the ratio
    100 * 115 / 200 is exactly 57.5, which rounds to 58, while the code
    divides first, obtains 57.49999999999999 and returns 57. *)
Lemma getDevelopmentPercent_counterexample :
  let s := run ([ChangeGreenWeight "400"; ChangeChargeTemp "200"; ClickStart]
                ++ repeat Tick 85 ++ [ClickFirstCrack] ++ repeat Tick 115)
             (initial None) in
  reachable s /\
  firstCrackTime s = Some 85 /\
  roastTimer s = 200 /\
  2 * (100 * (200 - 85)) = (2 * 57 + 1) * 200 /\
  JS.Math_round (100 * JS.of_Z (200 - 85) / JS.of_Z 200)%float = 58%float /\
  (JS.of_Z (200 - 85) / JS.of_Z 200 * 100 <? 57.5)%float = true /\
  getDevelopmentPercent s = 57%float.
Proof.
  cbv zeta. split; [ apply reachable_run, reach_initial | ].
  repeat apply conj; vm_compute; reflexivity.
Qed.

(** The log button (roasting panel, disabled while the pending text is
    empty or parses to NaN): in the roasting stage, with a pending text that
    is non-empty and does not parse to NaN, the reading (timer, parsed
    value) is appended and the pending text cleared, nothing else changes;
    in every other case the state is unchanged.  A text that parses to NaN,
    such as abc, and the empty text are rejected by the handler itself. *)
Lemma addTemperatureReading_click (s : State) :
  let v := currentTemp s in
  let s' := dispatch ClickLogTemp s in
  (appState s = roasting -> v <> ""%string ->
   JS.isNaN (JS.parseFloat v) = false ->
   s' = setCurrentTemp ""
          (setTemperatureReadings
             (temperatureReadings s ++
              [{| time := roastTimer s; temperature := JS.parseFloat v |}])
             s)) /\
  (~ (appState s = roasting /\ v <> ""%string /\
      JS.isNaN (JS.parseFloat v) = false) -> s' = s) /\
  (v = ""%string \/ JS.isNaN (JS.parseFloat v) = true ->
   addTemperatureReading s = s /\ s' = s) /\
  (v = "abc"%string -> addTemperatureReading s = s /\ s' = s).
Proof.
  cbv zeta.
  assert (Hrej : currentTemp s = ""%string
                 \/ JS.isNaN (JS.parseFloat (currentTemp s)) = true ->
                 addTemperatureReading s = s /\ dispatch ClickLogTemp s = s).
  { intros H. unfold dispatch, addTemperatureReading.
    assert (E : nonempty (currentTemp s)
                && negb (JS.isNaN (JS.parseFloat (currentTemp s))) = false).
    { destruct H as [H|H]; rewrite H; [ reflexivity | ].
      apply andb_false_r. }
    rewrite E. split; trivial.
    destruct (in_panel roasting s && nonempty (currentTemp s)
              && negb (JS.isNaN (JS.parseFloat (currentTemp s))));
      reflexivity. }
  repeat apply conj.
  - intros H1 H2 H3. unfold dispatch, addTemperatureReading.
    apply in_panel_true in H1. apply nonempty_true in H2.
    rewrite H1, H2, H3. reflexivity.
  - intros Hn. unfold dispatch.
    destruct (in_panel roasting s) eqn:E1; cbn [andb]; trivial.
    destruct (nonempty (currentTemp s)) eqn:E2; cbn [andb]; trivial.
    destruct (JS.isNaN (JS.parseFloat (currentTemp s))) eqn:E3;
      cbn [andb negb]; trivial.
    exfalso. apply Hn. apply in_panel_true in E1.
    apply nonempty_true in E2. repeat split; assumption.
  - exact Hrej.
  - intros H. apply Hrej. right. rewrite H. reflexivity.
Qed.

(** C7, as the code has it: 0 for fewer than two readings; otherwise, from
    the last two readings only, the temperature difference divided by the
    time difference, times 60, rounded; a log of two or more readings does
    end in two readings; and when these two have the same time the division
    by zero is not guarded and the result is NaN or infinite. *)
Theorem getRateOfRise_spec (s : State) :
  ((List.length (temperatureReadings s) < 2)%nat ->
   getRateOfRise s = 0%float) /\
  ((2 <= List.length (temperatureReadings s))%nat ->
   exists l r0 r1, temperatureReadings s = l ++ [r0; r1]) /\
  (forall l r0 r1, temperatureReadings s = l ++ [r0; r1] ->
   getRateOfRise s
   = JS.Math_round
       ((temperature r1 - temperature r0)
        / JS.of_Z (time r1 - time r0) * 60)%float /\
   (time r1 = time r0 -> JS.isFinite (getRateOfRise s) = false)).
Proof.
  split; [ | split ].
  - intros H. unfold getRateOfRise.
    destruct (Nat.ltb_spec (List.length (temperatureReadings s)) 2);
      [ reflexivity | lia ].
  - apply last_two_exist.
  - intros l r0 r1 E.
    assert (F : getRateOfRise s
                = JS.Math_round
                    ((temperature r1 - temperature r0)
                     / JS.of_Z (time r1 - time r0) * 60)%float).
    { unfold getRateOfRise. rewrite E, slice_last2_app.
      destruct (Nat.ltb_spec (List.length (l ++ [r0; r1])) 2) as [H|H];
        [ rewrite length_app in H; simpl in H; lia | reflexivity ]. }
    split; [ exact F | ].
    intros Ht. rewrite F, Ht, Z.sub_diag.
    change (JS.of_Z 0) with 0%float.
    eapply round_div_zero_not_finite. reflexivity.
Qed.

(** C7 on a log of three readings: the rate comes from the last two, 190 at
    120 s and 196 at 150 s, that is 12 degrees per minute; it is 0 on a log
    of one reading, and not finite when the last two readings are both at
    150 s. *)
Lemma getRateOfRise_spec_witness :
  let r0 := {| time := 0; temperature := 200 |} in
  let r1 := {| time := 120; temperature := 190 |} in
  let r2 := {| time := 150; temperature := 196 |} in
  let r3 := {| time := 150; temperature := 197 |} in
  getRateOfRise (setTemperatureReadings [r0; r1; r2] (initial None))
  = 12%float /\
  getRateOfRise (setTemperatureReadings [r0] (initial None)) = 0%float /\
  JS.isFinite
    (getRateOfRise (setTemperatureReadings [r0; r1; r2; r3] (initial None)))
  = false.
Proof.
  cbv zeta. repeat apply conj.
  - destruct (getRateOfRise_spec
                (setTemperatureReadings
                   [{| time := 0; temperature := 200 |};
                    {| time := 120; temperature := 190 |};
                    {| time := 150; temperature := 196 |}] (initial None)))
      as (_ & _ & H).
    exact (proj1 (H [{| time := 0; temperature := 200 |}]
                    {| time := 120; temperature := 190 |}
                    {| time := 150; temperature := 196 |} eq_refl)).
  - destruct (getRateOfRise_spec
                (setTemperatureReadings
                   [{| time := 0; temperature := 200 |}] (initial None)))
      as (H & _).
    apply H. simpl. lia.
  - destruct (getRateOfRise_spec
                (setTemperatureReadings
                   [{| time := 0; temperature := 200 |};
                    {| time := 120; temperature := 190 |};
                    {| time := 150; temperature := 196 |};
                    {| time := 150; temperature := 197 |}] (initial None)))
      as (_ & _ & H).
    exact (proj2 (H [{| time := 0; temperature := 200 |};
                     {| time := 120; temperature := 190 |}]
                    {| time := 150; temperature := 196 |}
                    {| time := 150; temperature := 197 |} eq_refl) eq_refl).
Defined.

(** C7 as stated fails: two readings logged within the same second give an
    infinite rate when the temperatures differ and NaN when they are equal,
    and not 0. *)
Lemma getRateOfRise_counterexample :
  let s := run [ChangeGreenWeight "400"; ChangeChargeTemp "200"; ClickStart;
                Tick; ChangeCurrentTemp "190"; ClickLogTemp;
                ChangeCurrentTemp "195"; ClickLogTemp] (initial None) in
  let t := run [ChangeGreenWeight "400"; ChangeChargeTemp "200"; ClickStart;
                ChangeCurrentTemp "200"; ClickLogTemp] (initial None) in
  (reachable s /\
   temperatureReadings s = [{| time := 0; temperature := 200 |};
                            {| time := 1; temperature := 190 |};
                            {| time := 1; temperature := 195 |}] /\
   getRateOfRise s = infinity /\
   JS.isFinite (getRateOfRise s) = false /\
   PrimFloat.eqb (getRateOfRise s) 0 = false) /\
  (reachable t /\
   temperatureReadings t = [{| time := 0; temperature := 200 |};
                            {| time := 0; temperature := 200 |}] /\
   getRateOfRise t = nan /\
   JS.isFinite (getRateOfRise t) = false /\
   PrimFloat.eqb (getRateOfRise t) 0 = false).
Proof.
  cbv zeta. split; (split; [ apply reachable_run, reach_initial | ]);
    repeat apply conj; reflexivity.
Qed.

(** The estimates before the floors are numbers, whatever was typed. *)
Lemma estimates_not_nan (base : float) (sb : bool) (mb : positive) (eb : Z)
  (charge : float) :
  Prim2SF base = S754_finite sb mb eb ->
  PrimFloat.is_nan charge = false ->
  PrimFloat.is_nan (base + (charge - 200) * 0.5) = false.
Proof.
  intros Hb Hc.
  eapply add_finite_not_nan; [ exact Hb | ].
  eapply mul_finite_not_nan; [ reflexivity | ].
  eapply sub_finite_not_nan; [ reflexivity | exact Hc ].
Qed.

(** C8.  With [weight] and [charge] the numbers parsed from the form and
    [baseTime] 720 above 500 g and 660 otherwise, the total-time estimate is
    the larger of baseTime + (charge - 200) * 0.5 and 600 and the
    first-crack estimate the larger of baseTime * 0.8 + (charge - 200) * 0.5
    and 480 (an empty or unparsable charge temperature counting as 0); the
    development target is 15, 18 or 22 for the Light, Medium or Dark
    profile; and the total time is at least 600 and the first crack at
    least 480 whatever the form holds. *)
Theorem getPredictions_spec (s : State) :
  let weight := JS.parseFloat (greenWeight s) in
  let charge := JS.parseFloat (chargeTemp s) in
  let baseTime := (if 500 <? weight then 720 else 660)%float in
  let p := getPredictions s in
  (JS.isNaN charge = false ->
   Predictions.totalTime p
   = JS.Math_max (baseTime + (charge - 200) * 0.5)%float 600 /\
   Predictions.firstCrack p
   = JS.Math_max (baseTime * 0.8 + (charge - 200) * 0.5)%float 480) /\
  (JS.isNaN charge = true ->
   Predictions.totalTime p
   = JS.Math_max (baseTime + (0 - 200) * 0.5)%float 600 /\
   Predictions.firstCrack p
   = JS.Math_max (baseTime * 0.8 + (0 - 200) * 0.5)%float 480) /\
  (roastType s = "Light"%string -> Predictions.development p = 15) /\
  (roastType s = "Medium"%string -> Predictions.development p = 18) /\
  (roastType s = "Dark"%string -> Predictions.development p = 22) /\
  (600 <=? Predictions.totalTime p)%float = true /\
  (480 <=? Predictions.firstCrack p)%float = true.
Proof.
  cbv zeta. unfold getPredictions. cbn [Predictions.totalTime
    Predictions.firstCrack Predictions.development].
  pose proof (or_zero_not_nan (JS.parseFloat (chargeTemp s))) as Hc.
  rewrite (ltb_or_zero 500 _ _ _ eq_refl).
  repeat apply conj.
  - intros H. rewrite (sub_or_zero _ 200 _ _ _ eq_refl H).
    split; reflexivity.
  - intros H. unfold JS.or_zero, JS.truthy. unfold JS.isNaN in H.
    rewrite H. split; reflexivity.
  - intros ->. reflexivity.
  - intros ->. reflexivity.
  - intros ->. reflexivity.
  - apply Math_max_ge_r; [ | reflexivity ].
    destruct (500 <? JS.parseFloat (greenWeight s))%float;
      (eapply estimates_not_nan; [ reflexivity | exact Hc ]).
  - apply Math_max_ge_r; [ | reflexivity ].
    destruct (500 <? JS.parseFloat (greenWeight s))%float;
      (eapply estimates_not_nan; [ reflexivity | exact Hc ]).
Qed.

(** C8 on three forms: 600 g charged at 150 degrees on the Light profile;
    an untouched form, where the charge temperature counts as 0, the
    profile is Medium and both floors apply; and the Dark profile. *)
Lemma getPredictions_spec_witness :
  let s1 := run [ChangeGreenWeight "600"; ChangeChargeTemp "150";
                 ChangeRoastType "Light"] (initial None) in
  let s2 := initial None in
  let s3 := run [ChangeRoastType "Dark"] (initial None) in
  (Predictions.totalTime (getPredictions s1) = 695%float /\
   Predictions.firstCrack (getPredictions s1) = 551%float /\
   Predictions.development (getPredictions s1) = 15) /\
  (Predictions.totalTime (getPredictions s2) = 600%float /\
   Predictions.firstCrack (getPredictions s2) = 480%float /\
   Predictions.development (getPredictions s2) = 18) /\
  Predictions.development (getPredictions s3) = 22.
Proof.
  cbv zeta. split; [ | split ].
  - destruct (getPredictions_spec
                (run [ChangeGreenWeight "600"; ChangeChargeTemp "150";
                      ChangeRoastType "Light"] (initial None)))
      as (H1 & _ & H2 & _).
    destruct (H1 eq_refl) as [Ha Hb].
    exact (conj Ha (conj Hb (H2 eq_refl))).
  - destruct (getPredictions_spec (initial None))
      as (_ & H1 & _ & H2 & _).
    destruct (H1 eq_refl) as [Ha Hb].
    exact (conj Ha (conj Hb (H2 eq_refl))).
  - destruct (getPredictions_spec
                (run [ChangeRoastType "Dark"] (initial None)))
      as (_ & _ & _ & _ & H & _).
    exact (H eq_refl).
Defined.

(** C9.  Every reachable state satisfies the session invariants: the timer
    is not negative, the times of the logged readings are non-decreasing
    and none exceeds the timer, and a first-crack mark does not exceed the
    timer.  Every control keeps them, and so does each handler called in
    any state that satisfies them: start, tick, pause, resume, first crack,
    log temperature, finish and reset.  A mark is the timer value at the
    moment it is set, and a reading appended by the log operation carries
    the timer value of that moment. *)
Theorem session_invariants :
  (forall s, reachable s -> session_inv s) /\
  (forall e s, session_inv s -> session_inv (dispatch e s)) /\
  (forall s, session_inv s ->
   session_inv (startRoast s) /\
   session_inv (tick s) /\
   session_inv (stopRoast s) /\
   session_inv (setIsTimerRunning true s) /\
   session_inv (markFirstCrack s) /\
   session_inv (addTemperatureReading s) /\
   session_inv (finishRoast s) /\
   session_inv (resetRoast s)) /\
  (forall s, firstCrackTime (markFirstCrack s) = Some (roastTimer s)) /\
  (forall s, addTemperatureReading s <> s ->
   exists v, temperatureReadings (addTemperatureReading s)
             = temperatureReadings s
               ++ [{| time := roastTimer s; temperature := v |}]).
Proof.
  repeat apply conj.
  - exact reachable_inv.
  - exact session_inv_dispatch.
  - intros s H. repeat apply conj.
    + apply session_inv_startRoast, H.
    + apply session_inv_tick, H.
    + eapply session_inv_same; [ | | | exact H ]; reflexivity.
    + eapply session_inv_same; [ | | | exact H ]; reflexivity.
    + apply session_inv_markFirstCrack, H.
    + apply session_inv_addTemperatureReading, H.
    + eapply session_inv_same; [ | | | exact H ]; reflexivity.
    + apply session_inv_resetRoast.
  - reflexivity.
  - intros s. unfold addTemperatureReading.
    destruct (nonempty (currentTemp s)
              && negb (JS.isNaN (JS.parseFloat (currentTemp s))));
      [ intros _; eexists; reflexivity | congruence ].
Qed.

(** C9 on a roast with a reading at 2 s, the mark at 3 s and a reading at
    4 s. *)
Lemma session_invariants_witness :
  session_inv
    (run [ChangeGreenWeight "400"; ChangeChargeTemp "200"; ClickStart;
          Tick; Tick; ChangeCurrentTemp "180"; ClickLogTemp; Tick;
          ClickFirstCrack; Tick; ChangeCurrentTemp "185"; ClickLogTemp]
       (initial None)).
Proof.
  exact (proj1 session_invariants _
           (reachable_run _ _ (reach_initial None))).
Defined.

(** C10.  When the pending text is non-empty and parses to a number, the
    handler appends exactly one reading and clears the pending text; called
    again at once, by itself or through the button, it changes nothing, so
    one entered value gives one reading. *)
Theorem addTemperatureReading_clears_input (s : State) :
  currentTemp s <> ""%string ->
  JS.isNaN (JS.parseFloat (currentTemp s)) = false ->
  let s' := addTemperatureReading s in
  currentTemp s' = ""%string /\
  temperatureReadings s'
  = temperatureReadings s
    ++ [{| time := roastTimer s;
           temperature := JS.parseFloat (currentTemp s) |}] /\
  List.length (temperatureReadings s')
  = S (List.length (temperatureReadings s)) /\
  addTemperatureReading s' = s' /\
  dispatch ClickLogTemp s' = s' /\
  List.length (temperatureReadings (addTemperatureReading s'))
  = S (List.length (temperatureReadings s)).
Proof.
  intros H1 H2. cbv zeta.
  apply nonempty_true in H1.
  assert (E : addTemperatureReading s
              = setCurrentTemp ""
                  (setTemperatureReadings
                     (temperatureReadings s ++
                      [{| time := roastTimer s;
                          temperature := JS.parseFloat (currentTemp s) |}])
                     s)).
  { unfold addTemperatureReading. rewrite H1, H2. reflexivity. }
  rewrite E.
  assert (L : List.length
                (temperatureReadings s ++
                 [{| time := roastTimer s;
                     temperature := JS.parseFloat (currentTemp s) |}])
              = S (List.length (temperatureReadings s))).
  { rewrite length_app. simpl. lia. }
  repeat apply conj; try reflexivity; try exact L.
  unfold dispatch. cbn [currentTemp setCurrentTemp nonempty String.eqb negb].
  rewrite andb_false_r. reflexivity.
Qed.

(** C10 two seconds into a roast with 187 entered: one reading at 2 s is
    added, the input is empty, and a second press adds nothing. *)
Lemma addTemperatureReading_clears_input_witness :
  let s := run [ChangeGreenWeight "400"; ChangeChargeTemp "200"; ClickStart;
                Tick; Tick; ChangeCurrentTemp "187"] (initial None) in
  let s' := addTemperatureReading s in
  currentTemp s' = ""%string /\
  temperatureReadings s' = [{| time := 0; temperature := 200 |};
                            {| time := 2; temperature := 187 |}] /\
  addTemperatureReading s' = s'.
Proof.
  cbv zeta.
  destruct (addTemperatureReading_clears_input
              (run [ChangeGreenWeight "400"; ChangeChargeTemp "200";
                    ClickStart; Tick; Tick; ChangeCurrentTemp "187"]
                 (initial None)))
    as (Ha & Hb & _ & Hc & _); [ discriminate | reflexivity | ].
  repeat apply conj; [ exact Ha | exact Hb | exact Hc ].
Defined.

(** ** Further properties of the component *)

(** *** The timer display *)

Lemma to_digits_one (fuel : nat) (n : Z) (acc : string) :
  0 <= n < 10 -> to_digits fuel n acc = String (digit_char n) acc.
Proof.
  intros H. destruct fuel; simpl; rewrite Z.mod_small by lia; trivial.
  destruct (Z.ltb_spec n 10); [ reflexivity | lia ].
Qed.

Lemma padStart2_toString (n : Z) :
  0 <= n < 100 ->
  padStart2 (toString n)
  = String (digit_char (n / 10)) (String (digit_char (n mod 10)) "").
Proof.
  intros H. unfold toString.
  destruct (Z.ltb_spec n 0); [ lia | ].
  destruct (Z.ltb_spec n 10) as [Hs|Hl].
  - rewrite to_digits_one by lia. simpl.
    rewrite Z.div_small, Z.mod_small by lia. reflexivity.
  - assert (L : 3 <= Z.log2 n)
      by (change 3 with (Z.log2 8); apply Z.log2_le_mono; lia).
    destruct (Z.to_nat (Z.log2 n)) as [|f] eqn:E; [ lia | ].
    simpl. destruct (Z.ltb_spec n 10); [ lia | ].
    rewrite to_digits_one by (Z.to_euclidean_division_equations; lia).
    reflexivity.
Qed.

Lemma digit_char_inj (a b : Z) :
  0 <= a < 10 -> 0 <= b < 10 -> digit_char a = digit_char b -> a = b.
Proof.
  intros Ha Hb H. unfold digit_char in H.
  apply (f_equal N_of_ascii) in H.
  rewrite !N_ascii_embedding in H by lia. lia.
Qed.

(** Below 100 minutes the display is two digits of minutes, a colon and two
    digits of seconds, five characters in all, and two different times are
    displayed differently. *)
Theorem formatTime_mm_ss (s : Z) :
  0 <= s < 6000 ->
  formatTime s
  = String (digit_char (s / 600))
      (String (digit_char (s / 60 mod 10))
         (String ":"
            (String (digit_char (s mod 60 / 10))
               (String (digit_char (s mod 10)) "")))) /\
  String.length (formatTime s) = 5%nat /\
  (forall t, 0 <= t < 6000 -> formatTime t = formatTime s -> t = s).
Proof.
  assert (F : forall x, 0 <= x < 6000 ->
            formatTime x
            = String (digit_char (x / 600))
                (String (digit_char (x / 60 mod 10))
                   (String ":"
                      (String (digit_char (x mod 60 / 10))
                         (String (digit_char (x mod 10)) ""))))).
  { intros x Hx. unfold formatTime.
    rewrite Z.rem_mod_nonneg by lia.
    rewrite !padStart2_toString
      by (Z.to_euclidean_division_equations; lia).
    replace (x / 60 / 10) with (x / 600)
      by (Z.to_euclidean_division_equations; lia).
    replace (x mod 60 mod 10) with (x mod 10)
      by (Z.to_euclidean_division_equations; lia).
    reflexivity. }
  intros Hs. split; [ apply F, Hs | ]. split.
  - rewrite F by exact Hs. reflexivity.
  - intros t Ht E. rewrite (F t Ht), (F s Hs) in E.
    injection E as E1 E2 E3 E4.
    apply digit_char_inj in E1, E2, E3, E4;
      Z.to_euclidean_division_equations; lia.
Qed.

(** The display of 12 minutes 5 seconds. *)
Lemma formatTime_mm_ss_witness :
  formatTime 725 = "12:05"%string /\
  String.length (formatTime 725) = 5%nat.
Proof.
  destruct (formatTime_mm_ss 725 ltac:(lia)) as (H1 & H2 & _).
  exact (conj H1 H2).
Defined.

(** *** The timer *)

Lemma run_app (es fs : list Event) (s : State) :
  run (es ++ fs) s = run fs (run es s).
Proof. unfold run. apply fold_left_app. Qed.

Lemma setRoastTimer_same (s : State) : setRoastTimer (roastTimer s) s = s.
Proof. destruct s; reflexivity. Qed.

Lemma run_repeat_Tick (n : nat) (s : State) :
  run (repeat Tick n) s
  = if isTimerRunning s
    then setRoastTimer (roastTimer s + Z.of_nat n) s
    else s.
Proof.
  revert s. induction n as [|n IH]; intros s.
  - simpl. rewrite Z.add_0_r, setRoastTimer_same.
    destruct (isTimerRunning s); reflexivity.
  - change (run (repeat Tick (S n)) s) with (run (repeat Tick n) (tick s)).
    rewrite IH. unfold tick.
    destruct (isTimerRunning s) eqn:E; [ | rewrite E; reflexivity ].
    cbn [isTimerRunning setRoastTimer]. rewrite E.
    unfold setRoastTimer. cbn. f_equal. lia.
Qed.

(** Any number of timer ticks, in whatever panel: the timer of a running
    session advances by one per tick and nothing else changes; a stopped
    session is left as it is. *)
Theorem ticks_advance (n : nat) (s : State) :
  run (repeat Tick n) s
  = if isTimerRunning s
    then setRoastTimer (roastTimer s + Z.of_nat n) s
    else s.
Proof. exact (run_repeat_Tick n s). Qed.

(** Pausing freezes the timer: between a press of the pause button and the
    next press, ticks change nothing, and the second press gives back the
    running session as it was. *)
Theorem pause_freezes_timer (n : nat) (s : State) :
  appState s = roasting -> isTimerRunning s = true ->
  let p := dispatch ClickPauseResume s in
  isTimerRunning p = false /\
  run (repeat Tick n) p = p /\
  run (ClickPauseResume :: repeat Tick n ++ [ClickPauseResume]) s = s.
Proof.
  intros Ha Hr. cbv zeta.
  assert (P : dispatch ClickPauseResume s = setIsTimerRunning false s).
  { unfold dispatch. apply in_panel_true in Ha. rewrite Ha, Hr.
    reflexivity. }
  assert (T : run (repeat Tick n) (setIsTimerRunning false s)
              = setIsTimerRunning false s)
    by (rewrite run_repeat_Tick; reflexivity).
  rewrite P. repeat apply conj; trivial.
  change (run (ClickPauseResume :: repeat Tick n ++ [ClickPauseResume]) s)
    with (run (repeat Tick n ++ [ClickPauseResume])
            (dispatch ClickPauseResume s)).
  rewrite P, run_app, T.
  destruct s; simpl in *; subst; reflexivity.
Qed.

(** Three seconds into a roast: paused for ten ticks and resumed, the
    session is as before, at 3 s. *)
Lemma pause_freezes_timer_witness :
  let s := run [ChangeGreenWeight "400"; ChangeChargeTemp "200"; ClickStart;
                Tick; Tick; Tick] (initial None) in
  run (ClickPauseResume :: repeat Tick 10 ++ [ClickPauseResume]) s = s /\
  roastTimer s = 3.
Proof.
  cbv zeta. split; [ | reflexivity ].
  exact (proj2 (proj2 (pause_freezes_timer 10
           (run [ChangeGreenWeight "400"; ChangeChargeTemp "200";
                 ClickStart; Tick; Tick; Tick] (initial None))
           eq_refl eq_refl))).
Defined.

(** *** Invariants of the panels and of the archive *)

(** Case analysis on a control and on the panel shown, reducing the guards
    that are decided and splitting on the others. *)
Ltac by_control e s :=
  destruct e; destruct s as [a ? ? ? ? ? ? ? ? ? ? ? ? ? ?]; destruct a;
  try match goal with key : AppState |- _ => destruct key end;
  unfold dispatch, tick, navigate, startRoast, addTemperatureReading;
  cbn -[nonempty JS.parseFloat JS.isNaN]; intros;
  repeat match goal with
         | |- context [if ?c then _ else _] =>
             destruct c eqn:?; cbn -[nonempty JS.parseFloat JS.isNaN]
         end.

Lemma timer_frozen_dispatch (e : Event) (s : State) :
  timer_frozen s -> timer_frozen (dispatch e s).
Proof.
  unfold timer_frozen. by_control e s; auto; congruence.
Qed.

Lemma form_filled_dispatch (e : Event) (s : State) :
  form_filled s -> form_filled (dispatch e s).
Proof.
  unfold form_filled. by_control e s;
    repeat match goal with
           | H : (_ && _)%bool = true |- _ =>
               apply andb_true_iff in H; destruct H
           | H : nonempty _ = true |- _ => apply nonempty_true in H
           end;
    cbn in *; intuition (auto; congruence).
Qed.

Lemma panel_invariants (s : State) :
  reachable s -> timer_frozen s /\ form_filled s.
Proof.
  induction 1 as [stored|s e _ (H1 & H2)].
  - repeat split.
  - auto using timer_frozen_dispatch, form_filled_dispatch.
Qed.

(** Once the roast is finished the timer is stopped: in every reachable
    state showing the completion or the summary panel the timer is not
    running, and ticks leave the elapsed time as it is. *)
Theorem timer_stopped_after_finish (s : State) :
  reachable s ->
  appState s = completion \/ appState s = summary ->
  isTimerRunning s = false /\
  (forall n, run (repeat Tick n) s = s).
Proof.
  intros Hr Ha.
  assert (H : isTimerRunning s = false).
  { destruct (panel_invariants s Hr) as (H & _). unfold timer_frozen in H.
    destruct Ha as [Ha|Ha]; rewrite Ha in H; exact H. }
  split; [ exact H | ].
  intros n. rewrite run_repeat_Tick, H. reflexivity.
Qed.

(** A roast of two seconds, finished: the timer is stopped at 2 s and five
    more ticks change nothing. *)
Lemma timer_stopped_after_finish_witness :
  let s := run [ChangeGreenWeight "400"; ChangeChargeTemp "200"; ClickStart;
                Tick; Tick; ClickFinish] (initial None) in
  isTimerRunning s = false /\
  run (repeat Tick 5) s = s /\
  roastTimer s = 2.
Proof.
  cbv zeta.
  destruct (timer_stopped_after_finish
              (run [ChangeGreenWeight "400"; ChangeChargeTemp "200";
                    ClickStart; Tick; Tick; ClickFinish] (initial None))
              (reachable_run _ _ (reach_initial None))
              (or_introl eq_refl)) as [H1 H2].
  exact (conj H1 (conj (H2 5%nat) eq_refl)).
Defined.

(** The roasting, completion and summary panels are reached only with the
    green weight and the charge temperature entered, and the summary panel
    only with the roasted weight entered too: the texts a saved roast is
    built from are never empty. *)
Theorem weights_entered (s : State) :
  reachable s ->
  (appState s = roasting \/ appState s = completion \/ appState s = summary ->
   greenWeight s <> ""%string /\ chargeTemp s <> ""%string) /\
  (appState s = summary -> roastedWeight s <> ""%string).
Proof.
  intros Hr. destruct (panel_invariants s Hr) as (_ & H).
  unfold form_filled in H. split.
  - intros [Ha|[Ha|Ha]]; rewrite Ha in H; tauto.
  - intros Ha. rewrite Ha in H. tauto.
Qed.

(** A session brought to its summary through the navigation bar and the
    panels. *)
Lemma weights_entered_witness :
  let s := run [ChangeGreenWeight "400"; ChangeChargeTemp "200";
                Navigate history; Navigate roasting; ClickFinish;
                ChangeRoastedWeight "340"; ClickSummary] (initial None) in
  appState s = summary /\
  greenWeight s <> ""%string /\
  chargeTemp s <> ""%string /\
  roastedWeight s <> ""%string.
Proof.
  cbv zeta.
  destruct (weights_entered
              (run [ChangeGreenWeight "400"; ChangeChargeTemp "200";
                    Navigate history; Navigate roasting; ClickFinish;
                    ChangeRoastedWeight "340"; ClickSummary] (initial None))
              (reachable_run _ _ (reach_initial None))) as [H1 H2].
  destruct (H1 (or_intror (or_intror eq_refl))) as [Ha Hb].
  exact (conj eq_refl (conj Ha (conj Hb (H2 eq_refl)))).
Defined.

Lemma written_through_dispatch (e : Event) (s : State) :
  written_through s -> written_through (dispatch e s).
Proof.
  unfold written_through. by_control e s; auto.
Qed.

(** Every change of the history is written through to the storage.
    Starting on a storage without the entry, after any sequence of events
    the entry is absent and the history shown is empty, or the entry was
    last written with the text of exactly the history shown. *)
Theorem storage_written_through (es : list Event) :
  written_through (run es (initial None)).
Proof.
  assert (H : forall s, written_through s -> written_through (run es s)).
  { induction es as [|e es IH]; intros s Hs; simpl; trivial.
    apply IH, written_through_dispatch, Hs. }
  apply H. reflexivity.
Qed.

(** *** The archive *)

Lemma saveRoast_history (id date : string) (s : State) :
  exists r,
    roastHistory (saveRoast id date s) = roastHistory s ++ [r] /\
    rd_id r = id /\
    rd_totalTime r = roastTimer s /\
    rd_firstCrackTime r = or_0 (firstCrackTime s) /\
    rd_temperatureReadings r = temperatureReadings s /\
    rd_weightLoss r
    = ((JS.parseFloat (greenWeight s) - JS.parseFloat (roastedWeight s))
       / JS.parseFloat (greenWeight s) * 100)%float.
Proof. eexists. repeat split. Qed.

Lemma record_inv_saveRoast (id date : string) (s : State) :
  session_inv s ->
  Forall record_inv (roastHistory s) ->
  Forall record_inv (roastHistory (saveRoast id date s)).
Proof.
  intros [H1 H2 H3 H4] Hh.
  destruct (saveRoast_history id date s) as (r & -> & _ & Ht & Hc & Hr & _).
  apply Forall_app. split; [ exact Hh | ].
  constructor; [ | constructor ].
  constructor; rewrite ?Ht, ?Hc, ?Hr; trivial.
  destruct (firstCrackTime s) as [fc|]; simpl; [ apply H4; trivial | lia ].
Qed.

Lemma record_inv_dispatch (e : Event) (s : State) :
  session_inv s ->
  Forall record_inv (roastHistory s) ->
  Forall record_inv (roastHistory (dispatch e s)).
Proof.
  intros Hs Hh.
  assert (Hd : forall id,
            Forall record_inv (roastHistory (deleteRoast id s))).
  { intros id. simpl. rewrite Forall_forall in *.
    intros r Hr. apply filter_In in Hr. apply Hh, Hr. }
  destruct e;
    try (replace (roastHistory (dispatch _ s)) with (roastHistory s);
         [ exact Hh
         | unfold dispatch, tick, navigate, startRoast,
             addTemperatureReading;
           repeat match goal with
                  | |- context [if ?c then _ else _] => destruct c
                  | |- context [match ?k with setup => _ | _ => _ end] =>
                      destruct k
                  end; reflexivity ]).
  - unfold dispatch. destruct (in_panel summary s); trivial.
    apply record_inv_saveRoast; assumption.
  - unfold dispatch.
    destruct (in_panel history s
              && (0 <? List.length (roastHistory s))%nat);
      [ constructor | exact Hh ].
  - unfold dispatch. destruct (in_panel history s); trivial.
Qed.

Lemma record_inv_run (es : list Event) :
  forall s,
    session_inv s -> Forall record_inv (roastHistory s) ->
    Forall record_inv (roastHistory (run es s)).
Proof.
  induction es as [|e es IH]; intros s Hs Hh; simpl; trivial.
  apply IH;
    [ apply session_inv_dispatch, Hs | apply record_inv_dispatch; trivial ].
Qed.

(** Every roast the component archives is well formed: when the records
    loaded at mount are, so are all records of the history after any
    sequence of events: the first-crack time is within the total time and
    the readings are in time order within the total time. *)
Theorem archive_well_formed (stored : option (list RoastData))
  (es : list Event) :
  Forall record_inv (roastHistory (initial stored)) ->
  Forall record_inv (roastHistory (run es (initial stored))).
Proof.
  intros H. apply record_inv_run; [ apply session_inv_initial | exact H ].
Qed.

(** A roast with a reading and a mark, saved on an empty storage. *)
Lemma archive_well_formed_witness :
  Forall record_inv
    (roastHistory
       (run [ChangeGreenWeight "400"; ChangeChargeTemp "200"; ClickStart;
             Tick; Tick; ChangeCurrentTemp "180"; ClickLogTemp; Tick;
             ClickFirstCrack; Tick; ClickFinish; ChangeRoastedWeight "340";
             ClickSummary;
             ClickSave "1700000000000" "2023-11-14T22:13:20.000Z"]
          (initial None))).
Proof.
  exact (archive_well_formed None _ (Forall_nil _)).
Defined.



(** Saving a roast under an id no archived record has, then deleting that
    id, gives back the history as it was, in the component and in the
    storage. *)
Theorem save_then_delete (id date : string) (s : State) :
  appState s = summary ->
  (forall r, In r (roastHistory s) -> rd_id r <> id) ->
  let s' := run [ClickSave id date; Navigate history; ClickDelete id] s in
  roastHistory s' = roastHistory s /\
  localStorage s' = Some (roastHistory s).
Proof.
  intros Ha Hid. cbv zeta.
  assert (E : run [ClickSave id date; Navigate history; ClickDelete id] s
              = deleteRoast id
                  (setAppState history (saveRoast id date s))).
  { assert (S1 : dispatch (ClickSave id date) s = saveRoast id date s).
    { unfold dispatch. apply in_panel_true in Ha. rewrite Ha.
      reflexivity. }
    change (run [ClickSave id date; Navigate history; ClickDelete id] s)
      with (dispatch (ClickDelete id)
              (dispatch (Navigate history)
                 (dispatch (ClickSave id date) s))).
    rewrite S1. reflexivity. }
  rewrite E.
  assert (F : filter (fun roast => negb (String.eqb (rd_id roast) id))
                (roastHistory (saveRoast id date s)) = roastHistory s).
  { destruct (saveRoast_history id date s) as (r & -> & Hr & _).
    rewrite filter_app. simpl. rewrite Hr, String.eqb_refl. simpl.
    rewrite app_nil_r.
    clear - Hid. induction (roastHistory s) as [|x l IH]; simpl; trivial.
    destruct (String.eqb_spec (rd_id x) id) as [E|E]; simpl.
    - exfalso. apply (Hid x); simpl; auto.
    - f_equal. apply IH. intros r Hr. apply Hid. simpl. auto. }
  unfold deleteRoast.
  cbn [roastHistory localStorage setRoastHistory setLocalStorage
       setAppState].
  rewrite F. split; reflexivity.
Qed.

(** A first roast saved and deleted again: the history is empty as before,
    and the storage, which had no entry, now holds the empty history. *)
Lemma save_then_delete_witness :
  let s := run [ChangeGreenWeight "400"; ChangeChargeTemp "200"; ClickStart;
                Tick; ClickFinish; ChangeRoastedWeight "340"; ClickSummary]
             (initial None) in
  let s' := run [ClickSave "1700000000000" "2023-11-14T22:13:20.000Z";
                 Navigate history; ClickDelete "1700000000000"] s in
  roastHistory s' = [] /\ localStorage s' = Some [].
Proof.
  cbv zeta.
  apply (save_then_delete "1700000000000" "2023-11-14T22:13:20.000Z"
           (run [ChangeGreenWeight "400"; ChangeChargeTemp "200";
                 ClickStart; Tick; ClickFinish; ChangeRoastedWeight "340";
                 ClickSummary] (initial None)) eq_refl).
  intros r H. vm_compute in H. destruct H.
Defined.

(** Dividing by a zero of either sign and scaling by a finite constant
    gives NaN or an infinity. *)
Lemma div_zero_scaled_not_finite (x g c : float) (s : bool) (m : positive)
  (e : Z) :
  Prim2SF c = S754_finite s m e ->
  PrimFloat.is_zero g = true ->
  JS.isFinite (x / g * c) = false.
Proof.
  intros Hc Hg. rewrite is_zero_spec in Hg.
  unfold JS.isFinite. rewrite is_nan_spec, is_infinity_spec.
  rewrite mul_spec, div_spec, Hc.
  destruct (Prim2SF g); try discriminate.
  destruct (Prim2SF x); reflexivity.
Qed.

(** A green weight that parses to zero passes the start button (its text is
    not empty), and the weight loss archived for it is NaN or an infinity,
    whatever roasted weight is entered. *)
Theorem weightLoss_zero_green (id date : string) (s : State)
  (r : RoastData) :
  PrimFloat.is_zero (JS.parseFloat (greenWeight s)) = true ->
  roastHistory (saveRoast id date s) = roastHistory s ++ [r] ->
  JS.isFinite (rd_weightLoss r) = false.
Proof.
  intros Hz Hr.
  destruct (saveRoast_history id date s) as (r' & E & _ & _ & _ & _ & W).
  rewrite E in Hr. apply app_inj_tail in Hr. destruct Hr as [_ <-].
  rewrite W. eapply div_zero_scaled_not_finite; [ reflexivity | exact Hz ].
Qed.

(** A roast of 0 g, weighed at 340 g: the start button accepts it and the
    archived weight loss is not finite. *)
Lemma weightLoss_zero_green_witness :
  let s := run [ChangeGreenWeight "0"; ChangeChargeTemp "200"; ClickStart;
                Tick; ClickFinish; ChangeRoastedWeight "340"; ClickSummary]
             (initial None) in
  appState s = summary /\
  exists r,
    roastHistory (saveRoast "1700000000000" "2023-11-14T22:13:20.000Z" s)
    = roastHistory s ++ [r] /\
    JS.isFinite (rd_weightLoss r) = false.
Proof.
  cbv zeta. split; [ reflexivity | ].
  eexists. split; [ reflexivity | ].
  apply (weightLoss_zero_green "1700000000000" "2023-11-14T22:13:20.000Z"
           (run [ChangeGreenWeight "0"; ChangeChargeTemp "200"; ClickStart;
                 Tick; ClickFinish; ChangeRoastedWeight "340"; ClickSummary]
              (initial None)));
    reflexivity.
Defined.

(** *** The session, one event at a time *)



(** The elapsed time is changed by nothing but the timer and the resets: an
    event leaves it as it is, or is a tick of a running timer adding one
    second, or returns it to 0 together with the mark and the log, in the
    setup panel. *)
Theorem timer_step (e : Event) (s : State) :
  roastTimer (dispatch e s) = roastTimer s \/
  (e = Tick /\ isTimerRunning s = true /\
   roastTimer (dispatch e s) = roastTimer s + 1) \/
  (roastTimer (dispatch e s) = 0 /\
   appState (dispatch e s) = setup /\
   firstCrackTime (dispatch e s) = None /\
   temperatureReadings (dispatch e s) = []).
Proof.
  by_control e s; auto 6.
Qed.

(** The Maillard phase is never shown: in a reachable state a mark is never
    ahead of the timer, so the phase is development exactly when a mark
    other than 0 is set, and drying otherwise. *)
Theorem maillard_never_shown (s : State) :
  reachable s ->
  getCurrentPhase s <> maillard /\
  (getCurrentPhase s = development <->
   exists fc, firstCrackTime s = Some fc /\ fc <> 0).
Proof.
  intros Hr. apply reachable_inv in Hr. destruct Hr as [_ _ _ H].
  rewrite getCurrentPhase_cases.
  destruct (firstCrackTime s) as [fc|].
  - specialize (H fc eq_refl).
    destruct (Z.eqb_spec fc 0) as [E|E].
    + split; [ discriminate | ].
      split; [ discriminate | intros (x & [= <-] & Hx); contradiction ].
    + destruct (Z.ltb_spec (roastTimer s) fc); [ lia | ].
      split; [ discriminate | ].
      split; [ intros _; exists fc; auto | reflexivity ].
  - split; [ discriminate | ].
    split; [ discriminate | intros (x & Hx & _); discriminate ].
Qed.

(** A roast marked at 2 s and seen at 4 s is in development. *)
Lemma maillard_never_shown_witness :
  let s := run [ChangeGreenWeight "400"; ChangeChargeTemp "200"; ClickStart;
                Tick; Tick; ClickFirstCrack; Tick; Tick] (initial None) in
  getCurrentPhase s <> maillard /\ getCurrentPhase s = development.
Proof.
  cbv zeta.
  destruct (maillard_never_shown
              (run [ChangeGreenWeight "400"; ChangeChargeTemp "200";
                    ClickStart; Tick; Tick; ClickFirstCrack; Tick; Tick]
                 (initial None))
              (reachable_run _ _ (reach_initial None))) as [H1 H2].
  split; [ exact H1 | ].
  apply H2. exists 2. split; [ reflexivity | discriminate ].
Defined.

(** After a save the form is still filled: the next roast can be started at
    once, and finished and summarised without weighing, because the roasted
    weight and the notes of the saved roast are still in place.  From any
    reachable summary: save, start, finish, summary leads to a summary at
    0 s with the texts of the previous roast and the log seeded anew. *)
Theorem next_roast_after_save (id date : string) (s : State) :
  reachable s ->
  appState s = summary ->
  let s' := run [ClickSave id date; ClickStart; ClickFinish; ClickSummary] s in
  appState s' = summary /\
  roastTimer s' = 0 /\
  firstCrackTime s' = None /\
  temperatureReadings s'
  = [{| time := 0; temperature := JS.parseFloat (chargeTemp s) |}] /\
  greenWeight s' = greenWeight s /\
  chargeTemp s' = chargeTemp s /\
  roastedWeight s' = roastedWeight s /\
  roastNotes s' = roastNotes s.
Proof.
  intros Hr Ha. destruct (panel_invariants s Hr) as (_ & H).
  unfold form_filled in H. rewrite Ha in H. destruct H as (Hg & Hc & Hw).
  apply nonempty_true in Hg, Hc, Hw.
  destruct s as [a ? ? ? ? ? ? ? ? ? ? ? ? ? ?]. cbn in Ha, Hg, Hc, Hw.
  subst a. cbv zeta.
  unfold run, fold_left, dispatch, saveRoast, resetRoast, startRoast,
    finishRoast, proceedToSummary.
  cbn -[nonempty JS.parseFloat getDevelopmentPercent].
  rewrite Hg, Hc. cbn -[nonempty JS.parseFloat getDevelopmentPercent].
  rewrite Hw. repeat split.
Qed.

(** A roast of 400 g weighed at 340 g and annotated, saved: the next
    summary is reached in three presses and still shows 340 g and the
    note. *)
Lemma next_roast_after_save_witness :
  let s := run [ChangeGreenWeight "400"; ChangeChargeTemp "200"; ClickStart;
                Tick; ClickFinish; ChangeRoastedWeight "340"; ClickSummary;
                ChangeRoastNotes "fruity"] (initial None) in
  let s' := run [ClickSave "1700000000000" "2023-11-14T22:13:20.000Z";
                 ClickStart; ClickFinish; ClickSummary] s in
  appState s' = summary /\
  roastTimer s' = 0 /\
  roastedWeight s' = "340"%string /\
  roastNotes s' = "fruity"%string.
Proof.
  cbv zeta.
  destruct (next_roast_after_save
              "1700000000000" "2023-11-14T22:13:20.000Z"
              (run [ChangeGreenWeight "400"; ChangeChargeTemp "200";
                    ClickStart; Tick; ClickFinish; ChangeRoastedWeight "340";
                    ClickSummary; ChangeRoastNotes "fruity"] (initial None))
              (reachable_run _ _ (reach_initial None)) eq_refl)
    as (H1 & H2 & _ & _ & _ & _ & H3 & H4).
  exact (conj H1 (conj H2 (conj H3 H4))).
Defined.

(** *** The component behind its inputs *)

Lemma delivered_empty_or_finite (v : string) :
  delivered v = true ->
  v = ""%string \/ JS.isFinite (JS.parseFloat v) = true.
Proof.
  unfold delivered, number_input.
  destruct (valid_number_text v && JS.isFinite (JS.parseFloat v)) eqn:E.
  - apply andb_true_iff in E. destruct E as [_ E]. auto.
  - intros H. apply String.eqb_eq in H. auto.
Qed.

Lemma number_input_rejects (typed : string) :
  valid_number_text typed = false
  \/ JS.isFinite (JS.parseFloat typed) = false ->
  number_input typed = ""%string.
Proof.
  unfold number_input. intros [H|H]; rewrite H;
    rewrite ?andb_false_r; reflexivity.
Qed.

Lemma delivered_number_input (typed : string) :
  delivered (number_input typed) = true.
Proof.
  unfold delivered.
  destruct (valid_number_text typed
            && JS.isFinite (JS.parseFloat typed)) eqn:E.
  - assert (N : number_input typed = typed)
      by (unfold number_input; rewrite E; reflexivity).
    rewrite N, N. apply String.eqb_refl.
  - assert (N : number_input typed = ""%string)
      by (unfold number_input; rewrite E; reflexivity).
    rewrite N. reflexivity.
Qed.

Lemma finite_is_number (x : float) :
  JS.isFinite x = true -> JS.isNaN x = false.
Proof.
  unfold JS.isFinite, JS.isNaN.
  destruct (PrimFloat.is_nan x); simpl; congruence.
Qed.

Lemma texts_delivered_dispatch (e : Event) (s : State) :
  from_inputs e = true -> texts_delivered s ->
  texts_delivered (dispatch e s).
Proof.
  intros He [H1 H2 H3 H4 H5]. revert He H1 H2 H3 H4 H5.
  destruct e; destruct s as [a ? ? ? ? ? ? ? ? ? ? ? ? ? ?];
    unfold dispatch, tick, navigate, startRoast, addTemperatureReading,
      from_inputs;
    cbn [greenWeight ambientTemp chargeTemp currentTemp roastedWeight];
    intros;
    repeat match goal with
           | |- context [if ?c then _ else _] => destruct c
           | |- context [match ?k with setup => _ | _ => _ end] =>
               destruct k
           end;
    constructor; assumption || reflexivity.
Qed.

Lemma on_screen_texts (s : State) : on_screen s -> texts_delivered s.
Proof.
  induction 1 as [stored|s e _ IH He].
  - constructor; reflexivity.
  - apply texts_delivered_dispatch; assumption.
Qed.

Lemma on_screen_reachable (s : State) : on_screen s -> reachable s.
Proof.
  induction 1; [ apply reach_initial | apply reach_step; assumption ].
Qed.

Lemma on_screen_run (es : list Event) :
  forall s, forallb from_inputs es = true -> on_screen s ->
            on_screen (run es s).
Proof.
  induction es as [|e es IH]; intros s He Hs; simpl; trivial.
  simpl in He. apply andb_true_iff in He. destruct He as [He Hes].
  apply IH; [ exact Hes | apply screen_step; assumption ].
Qed.

(** C6.  On the rendered component, logging a temperature appends the
    reading (timer, parsed value) only in the roasting stage and only for a
    pending text that parses to a finite number: the pending text is what
    the number input delivered, empty or the text of a finite number, so a
    non-empty one is finite, and the state changes in no other case.  A
    pending text that is empty or parses to NaN, such as abc, is rejected by
    the handler and by the button with the whole state unchanged; and a
    typed text that is not the text of a finite number reaches the state as
    the empty text, after which the log button changes nothing and the log,
    the timer, the mark, the running flag and the stage are as before. *)
Theorem logTemperature_finite_only (s : State) :
  let v := currentTemp s in
  let s' := dispatch ClickLogTemp s in
  (on_screen s ->
   (appState s = roasting -> v <> ""%string ->
    JS.isFinite (JS.parseFloat v) = true /\
    s' = setCurrentTemp ""
           (setTemperatureReadings
              (temperatureReadings s ++
               [{| time := roastTimer s; temperature := JS.parseFloat v |}])
              s)) /\
   (s' <> s ->
    appState s = roasting /\ v <> ""%string /\
    JS.isFinite (JS.parseFloat v) = true)) /\
  (v = ""%string \/ JS.isNaN (JS.parseFloat v) = true ->
   addTemperatureReading s = s /\ s' = s) /\
  (forall typed,
     valid_number_text typed = false
     \/ JS.isFinite (JS.parseFloat typed) = false ->
     let t := dispatch (ChangeCurrentTemp (number_input typed)) s in
     dispatch ClickLogTemp t = t /\
     temperatureReadings t = temperatureReadings s /\
     roastTimer t = roastTimer s /\
     firstCrackTime t = firstCrackTime s /\
     isTimerRunning t = isTimerRunning s /\
     appState t = appState s).
Proof.
  cbv zeta.
  destruct (addTemperatureReading_click s) as (A1 & A2 & A3 & _).
  cbv zeta in A1, A2, A3.
  repeat apply conj.
  - intros Hs.
    assert (F : currentTemp s <> ""%string ->
                JS.isFinite (JS.parseFloat (currentTemp s)) = true).
    { intros Hv. apply on_screen_texts in Hs. destruct Hs as [_ _ _ H _].
      apply delivered_empty_or_finite in H. tauto. }
    split.
    + intros Ha Hv. split; [ exact (F Hv) | ].
      apply A1; trivial. apply finite_is_number, F, Hv.
    + intros Hd.
      destruct (in_panel roasting s) eqn:Ea.
      * apply in_panel_true in Ea.
        destruct (String.eqb_spec (currentTemp s) "") as [Ev|Ev].
        -- exfalso. apply Hd, A2. tauto.
        -- auto.
      * exfalso. apply Hd, A2. intros (Ha & _).
        apply in_panel_true in Ha. congruence.
  - exact A3.
  - intros typed Ht. rewrite (number_input_rejects typed Ht).
    unfold dispatch. destruct (in_panel roasting s) eqn:Ea.
    + change (in_panel roasting (setCurrentTemp "" s))
        with (in_panel roasting s).
      rewrite Ea. repeat split.
    + rewrite Ea. repeat split.
Qed.

(** C6 one second into a roast: 195.5 typed and logged gives a finite
    reading at 1 s; abc typed reaches the state as the empty text and the
    log button then changes nothing. *)
Lemma logTemperature_finite_only_witness :
  let s := run [ChangeGreenWeight "400"; ChangeChargeTemp "200"; ClickStart;
                Tick; ChangeCurrentTemp (number_input "195.5")]
             (initial None) in
  let t := dispatch (ChangeCurrentTemp (number_input "abc")) s in
  (JS.isFinite (JS.parseFloat (currentTemp s)) = true /\
   temperatureReadings (dispatch ClickLogTemp s)
   = [{| time := 0; temperature := 200 |};
      {| time := 1; temperature := 195.5 |}]) /\
  (currentTemp t = ""%string /\
   dispatch ClickLogTemp t = t /\
   temperatureReadings t = temperatureReadings s).
Proof.
  cbv zeta.
  destruct (logTemperature_finite_only
              (run [ChangeGreenWeight "400"; ChangeChargeTemp "200";
                    ClickStart; Tick;
                    ChangeCurrentTemp (number_input "195.5")]
                 (initial None)))
    as (H1 & _ & H4).
  destruct (H1 (on_screen_run
                  [ChangeGreenWeight "400"; ChangeChargeTemp "200";
                   ClickStart; Tick;
                   ChangeCurrentTemp (number_input "195.5")]
                  (initial None) eq_refl (screen_initial None)))
    as [H1a _].
  destruct (H1a eq_refl ltac:(discriminate)) as [Ha Hb].
  destruct (H4 "abc"%string (or_introl eq_refl)) as (Hc & Hd & _).
  split.
  - exact (conj Ha (f_equal temperatureReadings Hb)).
  - exact (conj eq_refl (conj Hc Hd)).
Defined.

(** C4, at the input where the code departs from it.  A roast is started,
    marked at 2 s and left at 3 s for the setup panel through the
    navigation bar, where the start button is enabled again.  Pressing it
    starts the session anew, with the log replaced by the reading at time
    0, but the timer is not set to 0 as the claim has it: it stays at 3,
    and the mark of the earlier run stays too.  Every text of the scenario
    is one the number inputs deliver.  [resetRoast], on the same state,
    does set the timer to 0. *)
Theorem second_start_keeps_timer :
  let s := run [ChangeGreenWeight "400"; ChangeChargeTemp "200"; ClickStart;
                Tick; Tick; ClickFirstCrack; Tick; Navigate setup]
             (initial None) in
  let s' := dispatch ClickStart s in
  on_screen s /\
  (appState s = setup /\
   greenWeight s = "400"%string /\
   chargeTemp s = "200"%string /\
   JS.parseFloat (greenWeight s) = 400%float /\
   JS.parseFloat (chargeTemp s) = 200%float) /\
  (appState s' = roasting /\
   isTimerRunning s' = true /\
   temperatureReadings s' = [{| time := 0; temperature := 200 |}] /\
   roastTimer s' = 3 /\
   firstCrackTime s' = Some 2 /\
   getCurrentPhase s' = development) /\
  roastTimer (resetRoast s) = 0.
Proof.
  cbv zeta. split.
  - apply on_screen_run; [ reflexivity | apply screen_initial ].
  - repeat apply conj; vm_compute; reflexivity.
Qed.
